(** * The clinical ETL service: pipeline stages, orchestrator and job registry

    A shallow embedding of [etl-service/src/data_processing.py] and
    [etl-service/src/main.py].

    - A [DataFrame] is a list of rows over the eight columns named in the
      docstring of [transform_data], together with one dtype per column, as
      pandas keeps it. Files with other columns, or without one of the
      eight, are not covered.
    - A stage either returns a value or raises: [result].
    - The orchestrator runs in a state-and-exception monad over a [world]
      made of the shared [jobs] dictionary, the task set, the database and
      a log of what was done, in order. A run is followed on its own, from
      start to end: other runs write only under their own job ids.
    - What the service takes from its libraries and its surroundings (the
      datetime parser and the sort of pandas, the files on disk, the clock)
      is a parameter. Task cancellation is outside the model: an exception
      here is an instance of Python's [Exception]. *)

From Stdlib Require Import ZArith QArith Ascii String List Permutation Sorted Lia.
From stdpp Require Import gmap strings pretty list.

Open Scope string_scope.

(* ===================================================================== *)
(** * Exceptions and results *)
(* ===================================================================== *)

Inductive exn :=
| FileNotFoundError (msg : string)
| EmptyDataError (msg : string)
| ParserError (msg : string)
| KeyError (key : string)
| ValueError (msg : string)
| TypeError (msg : string)
| AssertionError
| HTTPException (status_code : Z) (detail : string)
| OtherException (msg : string).

(** [str(e)]: the message; a [KeyError] shows the repr of its key, a bare
    [assert] raises an [AssertionError] without arguments, and an
    [HTTPException] shows its status code and its detail. *)
Definition str_exn (e : exn) : string :=
  match e with
  | FileNotFoundError m | EmptyDataError m | ParserError m
  | ValueError m | TypeError m | OtherException m => m
  | KeyError k => "'" ++ k ++ "'"
  | AssertionError => EmptyString
  | HTTPException c d => pretty c ++ ": " ++ d
  end.

Inductive result (A : Type) :=
| Ok (a : A)
| Raise (e : exn).
Arguments Ok {A} a.
Arguments Raise {A} e.

#[global] Instance result_ret : MRet result := λ A a, Ok a.
#[global] Instance result_bind : MBind result := λ A B k m,
  match m with
  | Ok a => k a
  | Raise e => Raise e
  end.

(** [assert b] *)
Definition py_assert (b : bool) : result Datatypes.unit :=
  if b then Ok tt else Raise AssertionError.

(** Code that also reads or updates an object it shares with its caller
    runs over the state [S] of that object; the state reached when an
    exception is raised is kept, as in Python. *)
Definition M (S A : Type) : Type := S → result A * S.

#[global] Instance M_ret {S} : MRet (M S) := λ A a s, (Ok a, s).
#[global] Instance M_bind {S} : MBind (M S) := λ A B k m s,
  match m s with
  | (Ok a, s') => k a s'
  | (Raise e, s') => (Raise e, s')
  end.

Definition lift {S A} (r : result A) : M S A := λ s, (r, s).
Definition gets {S A} (f : S → A) : M S A := λ s, (Ok (f s), s).
Definition modify {S} (f : S → S) : M S Datatypes.unit := λ s, (Ok tt, f s).

(** [try: body except <caught> as e: handler e] *)
Definition try_except {S A} (body : M S A) (caught : exn → bool)
    (handler : exn → M S A) : M S A := λ s,
  match body s with
  | (Ok a, s') => (Ok a, s')
  | (Raise e, s') => if caught e then handler e s' else (Raise e, s')
  end.

(** [for x in l: body x] *)
Fixpoint for_each {S A} (l : list A) (body : A → M S Datatypes.unit)
    : M S Datatypes.unit :=
  match l with
  | [] => mret tt
  | x :: l' => body x;; for_each l' body
  end.

(* ===================================================================== *)
(** * Values, dtypes and frames *)
(* ===================================================================== *)

(** A finite float is a rational, and is compared as one. pandas reads NaN
    as a missing value: that is the null cell. A [Timestamp] carries its UTC
    offset in minutes ([None]: timezone-naive) and nanoseconds since the
    epoch (UTC for an aware value, wall clock for a naive one). *)
Inductive scalar :=
| Str (s : string)
| Int (z : Z)
| Float (q : Q)
| Bool (b : bool)
| Timestamp (tz : option Z) (ns : Z).

(** [None] is NaN / NA / NaT. *)
Definition cell := option scalar.

Inductive dtype :=
| d_object            (* object *)
| d_int64             (* int64 *)
| d_float64           (* float64 *)
| d_bool              (* bool *)
| d_string            (* string[python] *)
| d_Int64             (* Int64 *)
| d_Float64           (* Float64 *)
| d_boolean           (* boolean *)
| d_datetime (tz : option Z).  (* datetime64[ns] / datetime64[ns, tz] *)

(** [datetime64[ns, UTC]] *)
Definition d_datetime_utc : dtype := d_datetime (Some 0%Z).

#[global] Instance Q_eq_dec : EqDecision Q.
Proof. solve_decision. Defined.
#[global] Instance scalar_eq_dec : EqDecision scalar.
Proof. solve_decision. Defined.
#[global] Instance dtype_eq_dec : EqDecision dtype.
Proof. solve_decision. Defined.

(** One entry per column of the docstring of [transform_data]. *)
Record cols (A : Type) := Cols {
  study_id : A;
  participant_id : A;
  measurement_type : A;
  value : A;
  unit : A;
  timestamp : A;
  site_id : A;
  quality_score : A
}.
Arguments Cols {A}.
Arguments study_id {A}.
Arguments participant_id {A}.
Arguments measurement_type {A}.
Arguments value {A}.
Arguments unit {A}.
Arguments timestamp {A}.
Arguments site_id {A}.
Arguments quality_score {A}.

#[global] Instance cols_eq_dec `{EqDecision A} : EqDecision (cols A).
Proof. solve_decision. Defined.

Definition row := cols cell.

Record DataFrame := Frame {
  dtypes : cols dtype;
  rows : list row
}.

(** A column taken out of a frame: [data['c']]. *)
Record Series := Ser {
  s_dtype : dtype;
  s_values : list cell
}.

Definition cols_forallb {A} (p : A → bool) (c : cols A) : bool :=
  p (study_id c) && p (participant_id c) && p (measurement_type c)
  && p (value c) && p (unit c) && p (timestamp c) && p (site_id c)
  && p (quality_score c).

Definition notna (c : cell) : bool :=
  match c with Some _ => true | None => false end.

Definition set_timestamp {A} (x : A) (r : cols A) : cols A :=
  Cols (study_id r) (participant_id r) (measurement_type r) (value r)
       (unit r) x (site_id r) (quality_score r).

(** A column name, as a projection: [getitem (@value) data] is
    [data['value']]. *)
Definition column := ∀ A, cols A → A.

Definition getitem (c : column) (data : DataFrame) : Series :=
  Ser (c _ (dtypes data)) (map (c _) (rows data)).

(** [data['timestamp'] = s]; the assigned series was computed from the same
    frame, so the indexes agree row by row. *)
Fixpoint assign_cells (cs : list cell) (rs : list row) : list row :=
  match cs, rs with
  | c :: cs', r :: rs' => set_timestamp c r :: assign_cells cs' rs'
  | _, _ => rs
  end.

Definition setitem_timestamp (data : DataFrame) (s : Series) : DataFrame :=
  Frame (set_timestamp (s_dtype s) (dtypes data))
        (assign_cells (s_values s) (rows data)).

(* ===================================================================== *)
(** * The pandas operations used by the stages *)
(* ===================================================================== *)

(** [data.dropna()]: a row with a missing value in any column goes. *)
Definition dropna (data : DataFrame) : DataFrame :=
  Frame (dtypes data) (List.filter (cols_forallb notna) (rows data)).

(** [data.dropna(subset=['timestamp'])] *)
Definition dropna_timestamp (data : DataFrame) : DataFrame :=
  Frame (dtypes data) (List.filter (λ r, notna (timestamp r)) (rows data)).

(** Numbers as pandas compares them. *)
Definition num (c : cell) : option Q :=
  match c with
  | Some (Float q) => Some q
  | Some (Int z) => Some (inject_Z z)
  | Some (Bool b) => Some (if b then 1%Q else 0%Q)
  | _ => None
  end.

(** The sort key of a row: its quality score. The sort runs after the
    dtype assertions, on a [Float64] column without missing values. *)
Definition score (r : row) : Q := default 0%Q (num (quality_score r)).

Definition desc (key : row → Q) (a b : row) : Prop := (key b <= key a)%Q.

(** What the model takes from pandas without looking inside. The datetime
    parser behind [pd.to_datetime]: for a string of a column it gives the
    UTC offset and the nanoseconds, or [None] when the string is not a
    datetime in the format pandas settles on for that column. The sort behind
    [sort_values(ascending=False)]: some rearrangement of the rows with the
    keys in descending order; the default sort kind is not stable, so the
    order among equal keys is left open. *)
Class Pandas := {
  parse_datetime : list cell → string → option (option Z * Z);
  sort_values_desc : (row → Q) → list row → list row;
  sort_values_perm : ∀ key l, Permutation (sort_values_desc key l) l;
  sort_values_sorted : ∀ key l, StronglySorted (desc key) (sort_values_desc key l)
}.

Section Stages.
Context `{Pandas}.

(** [pd.to_datetime(..., errors='coerce')] on one value: a string that does
    not parse becomes NaT, a number counts nanoseconds since the epoch, a
    boolean is refused. *)
Definition to_timestamp (col : list cell) (c : cell) : result cell :=
  match c with
  | None => Ok None
  | Some (Str s) =>
      Ok (match parse_datetime col s with
          | Some (tz, ns) => Some (Timestamp tz ns)
          | None => None
          end)
  | Some (Int z) => Ok (Some (Timestamp None z))
  | Some (Float q) => Ok (Some (Timestamp None (Z.quot (Qnum q) (Z.pos (Qden q)))))
  | Some (Bool _) => Raise (TypeError "<class 'bool'> is not convertible to datetime")
  | Some (Timestamp tz ns) => Ok (Some (Timestamp tz ns))
  end.

Definition tz_of (c : cell) : option (option Z) :=
  match c with
  | Some (Timestamp tz _) => Some tz
  | _ => None
  end.

(** The dtype of the parsed column: naive values (or none at all) give
    [datetime64[ns]], one common offset gives [datetime64[ns, tz]], and
    without [utc=True] differing offsets leave an object column. *)
Definition datetime_dtype (cs : list cell) : dtype :=
  match omap tz_of cs with
  | [] => d_datetime None
  | tz :: tzs =>
      if forallb (λ tz', bool_decide (tz' = tz)) tzs then d_datetime tz else d_object
  end.

Definition to_datetime (s : Series) : result Series :=
  match s_dtype s with
  | d_datetime _ => Ok s
  | _ =>
      cs ← mapM (to_timestamp (s_values s)) (s_values s);
      Ok (Ser (datetime_dtype cs) cs)
  end.

Definition is_str (c : cell) : bool :=
  match c with Some (Str _) => true | _ => false end.

Definition is_str_or_na (c : cell) : bool :=
  match c with None | Some (Str _) => true | _ => false end.

Definition integral (c : cell) : bool :=
  match c with
  | None => true
  | Some (Float q) => (Z.pos (Qden (Qred q)) =? 1)%Z
  | Some (Int _) => true
  | _ => false
  end.

(** [convert_dtypes()] on one column: numpy dtypes move to the nullable
    extension dtypes, a float column whose values are all whole numbers
    becomes [Int64], an object column of strings becomes [string[python]],
    and extension and datetime columns stay as they are. *)
Definition convert_dtype (d : dtype) (cs : list cell) : dtype :=
  match d with
  | d_object =>
      if existsb is_str cs && forallb is_str_or_na cs then d_string else d_object
  | d_int64 => d_Int64
  | d_float64 => if forallb integral cs then d_Int64 else d_Float64
  | d_bool => d_boolean
  | _ => d
  end.

Definition convert_cell (d d' : dtype) (c : cell) : cell :=
  match d, d', c with
  | d_float64, d_Int64, Some (Float q) => Some (Int (Qnum (Qred q)))
  | _, _, _ => c
  end.

Definition columns (rs : list row) : cols (list cell) :=
  Cols (map study_id rs) (map participant_id rs) (map measurement_type rs)
       (map value rs) (map unit rs) (map timestamp rs) (map site_id rs)
       (map quality_score rs).

Definition cols_map2 {A B C} (f : A → B → C) (a : cols A) (b : cols B) : cols C :=
  Cols (f (study_id a) (study_id b)) (f (participant_id a) (participant_id b))
       (f (measurement_type a) (measurement_type b)) (f (value a) (value b))
       (f (unit a) (unit b)) (f (timestamp a) (timestamp b))
       (f (site_id a) (site_id b)) (f (quality_score a) (quality_score b)).

Definition convert_dtypes (data : DataFrame) : DataFrame :=
  let old := dtypes data in
  let new := cols_map2 convert_dtype old (columns (rows data)) in
  Frame new (map (cols_map2 (λ dd c, convert_cell dd.1 dd.2 c) (cols_map2 pair old new))
                 (rows data)).

(** [data.sort_values(by='quality_score', ascending=False)] *)
Definition sort_values (data : DataFrame) : DataFrame :=
  Frame (dtypes data) (sort_values_desc score (rows data)).

(** [drop_duplicates(subset=['participant_id', 'measurement_type'],
    keep='first')]: a row goes when an earlier row has the same pair. *)
Definition key (r : row) : cell * cell := (participant_id r, measurement_type r).

Fixpoint drop_dups (seen : list (cell * cell)) (rs : list row) : list row :=
  match rs with
  | [] => []
  | r :: rs' =>
      if bool_decide (key r ∈ seen) then drop_dups seen rs'
      else r :: drop_dups (key r :: seen) rs'
  end.

Definition drop_duplicates (data : DataFrame) : DataFrame :=
  Frame (dtypes data) (drop_dups [] (rows data)).

Definition dtype_is (d expected : dtype) : bool := bool_decide (d = expected).

(** [transform_data]. The simulated delay ([asyncio.sleep]) has no effect
    on the data. *)
Definition transform_data (data : DataFrame) : result DataFrame :=
  let data := dropna data in
  ts ← to_datetime (getitem (@timestamp) data);
  let data := setitem_timestamp data ts in
  let data := dropna_timestamp data in
  let data := convert_dtypes data in
  py_assert (dtype_is (study_id (dtypes data)) d_string);;
  py_assert (dtype_is (participant_id (dtypes data)) d_string);;
  py_assert (dtype_is (measurement_type (dtypes data)) d_string);;
  py_assert (dtype_is (value (dtypes data)) d_Float64);;
  py_assert (dtype_is (unit (dtypes data)) d_string);;
  py_assert (dtype_is (timestamp (dtypes data)) d_datetime_utc);;
  py_assert (dtype_is (site_id (dtypes data)) d_string);;
  py_assert (dtype_is (quality_score (dtypes data)) d_Float64);;
  let data := drop_duplicates (sort_values data) in
  Ok data.

End Stages.


(** ** Validation *)

Definition nullable (d : dtype) : bool :=
  match d with
  | d_string | d_Int64 | d_Float64 | d_boolean => true
  | _ => false
  end.

(** One element of [series >= x] or [series <= x] against a number: a
    missing value gives NA in a nullable column and False in a numpy one;
    text and datetimes do not compare with a number. *)
Definition cmp_num (op : Q → bool) (d : dtype) (c : cell) : result (option bool) :=
  match c with
  | None => Ok (if nullable d then None else Some false)
  | Some _ =>
      match num c with
      | Some q => Ok (Some (op q))
      | None => Raise (TypeError "'>=' not supported between instances of 'str' and 'int'")
      end
  end.

Definition series_cmp_num (op : Q → bool) (s : Series) : result (list (option bool)) :=
  match s_dtype s with
  | d_datetime _ => Raise (TypeError "Invalid comparison between dtype=datetime64[ns] and int")
  | d => mapM (cmp_num op d) (s_values s)
  end.

(** [series >= x] *)
Definition series_ge (s : Series) (x : Q) := series_cmp_num (λ q, Qle_bool x q) s.
(** [series <= x] *)
Definition series_le (s : Series) (x : Q) := series_cmp_num (λ q, Qle_bool q x) s.

(** [a & b] on nullable booleans. *)
Definition and_na (a b : option bool) : option bool :=
  match a, b with
  | Some false, _ | _, Some false => Some false
  | Some true, Some true => Some true
  | _, _ => None
  end.

(** [series.between(left, right)], both ends included:
    [(series >= left) & (series <= right)]. *)
Definition between (s : Series) (left right : Q) : result (list (option bool)) :=
  lmask ← series_ge s left;
  rmask ← series_le s right;
  Ok (zip_with and_na lmask rmask).

(** One element of [series <= now] against a UTC-aware instant. *)
Definition le_instant (now : Z) (d : dtype) (c : cell) : result (option bool) :=
  match c with
  | None => Ok (if nullable d then None else Some false)
  | Some (Timestamp (Some _) ns) => Ok (Some (ns <=? now)%Z)
  | Some (Timestamp None _) =>
      Raise (TypeError "Cannot compare tz-naive and tz-aware timestamps")
  | Some _ => Raise (TypeError "'<=' not supported between instances of 'str' and 'Timestamp'")
  end.

Definition series_le_instant (s : Series) (now : Z) : result (list (option bool)) :=
  match s_dtype s with
  | d_datetime None =>
      Raise (TypeError "Cannot compare tz-naive and tz-aware datetime-like objects")
  | d_int64 | d_float64 | d_bool | d_Int64 | d_Float64 | d_boolean =>
      Raise (TypeError "Invalid comparison between a numeric dtype and Timestamp")
  | d => mapM (le_instant now d) (s_values s)
  end.

(** The builtin [all] over the elements, in order: it stops at the first
    False, and the truth value of NA is an error. *)
Fixpoint py_all (bs : list (option bool)) : result bool :=
  match bs with
  | [] => Ok true
  | Some true :: bs' => py_all bs'
  | Some false :: _ => Ok false
  | None :: _ => Raise (TypeError "boolean value of NA is ambiguous")
  end.

(** [data.groupby('measurement_type')]: one group per value of the column,
    missing keys left out; each group holds the rows with that value. *)
Definition groupby_measurement_type (data : DataFrame) : list (cell * DataFrame) :=
  map (λ k, (k, Frame (dtypes data)
                      (List.filter (λ r, bool_decide (measurement_type r = k)) (rows data))))
      (remove_dups (List.filter notna (map measurement_type (rows data)))).

(** [series.unique()] *)
Definition unique (s : Series) : list cell := remove_dups (s_values s).

Definition is_AssertionError (e : exn) : bool :=
  match e with AssertionError => true | _ => false end.

(** [validate_data], run over the frame object it was handed; [now] is
    what [pd.Timestamp.now(tz='UTC')] reads when the third check is
    reached. *)
Definition validate_data (now : Z) : M DataFrame bool :=
  try_except
    (ge ← gets (λ data, series_ge (getitem (@value) data) 0);
     ok ← lift (ge ≫= py_all);
     lift (py_assert ok);;
     bt ← gets (λ data, between (getitem (@quality_score) data) 0 1);
     ok ← lift (bt ≫= py_all);
     lift (py_assert ok);;
     le ← gets (λ data, series_le_instant (getitem (@timestamp) data) now);
     ok ← lift (le ≫= py_all);
     lift (py_assert ok);;
     groups ← gets groupby_measurement_type;
     for_each groups (λ g,
       lift (py_assert (length (unique (getitem (@unit) g.2)) =? 1)%nat));;
     mret true)
    is_AssertionError
    (λ _, mret false).

(** ** Load *)

(** The table the validated rows are meant for. *)
Definition database := list row.

(** [load_data]: after the delay, [pass]. *)
Definition load_data (data : DataFrame) : M database Datatypes.unit := mret tt.

(* ===================================================================== *)
(** * The job registry and the orchestrator *)
(* ===================================================================== *)

(** The dictionary stored under a job id by [submit_job]. *)
Record Job := mkJob {
  jobId : string;
  filename : string;
  studyId : option string;
  status : string;
  progress : Z;
  message : string
}.

Inductive stage := Extract | Transform | Validate | Load.

(** What a run does that others can see, in the order it does it. *)
Inductive event :=
| Called (s : stage)
| SetStatus (job_id : string) (v : string)
| SetProgress (job_id : string) (v : Z)
| SetMessage (job_id : string) (v : string).

(** A task made by [asyncio.create_task(etl_pipeline(filename, jobs, job_id))]. *)
Record task := mkTask {
  t_filename : string;
  t_job_id : string
}.

#[global] Instance task_eq_dec : EqDecision task.
Proof. solve_decision. Defined.

Record world := mkWorld {
  jobs : gmap string Job;      (* main.jobs, shared with every run *)
  tasks : list task;           (* main.tasks *)
  db : database;
  log : list event
}.

Definition with_jobs (f : gmap string Job → gmap string Job) (w : world) : world :=
  mkWorld (f (jobs w)) (tasks w) (db w) (log w).
Definition with_log (ev : event) (w : world) : world :=
  mkWorld (jobs w) (tasks w) (db w) (log w ++ [ev]).

(** [jobs[job_id][k] = v]: the lookup [jobs[job_id]] raises [KeyError] for
    an unknown id. *)
Definition setitem_job (job_id : string) (f : Job → Job) (ev : event)
    : M world Datatypes.unit := λ w,
  match jobs w !! job_id with
  | Some j => (Ok tt, with_log ev (with_jobs <[job_id := f j]> w))
  | None => (Raise (KeyError job_id), w)
  end.

Definition set_status (job_id v : string) : M world Datatypes.unit :=
  setitem_job job_id
    (λ j, mkJob (jobId j) (filename j) (studyId j) v (progress j) (message j))
    (SetStatus job_id v).
Definition set_progress (job_id : string) (v : Z) : M world Datatypes.unit :=
  setitem_job job_id
    (λ j, mkJob (jobId j) (filename j) (studyId j) (status j) v (message j))
    (SetProgress job_id v).
Definition set_message (job_id v : string) : M world Datatypes.unit :=
  setitem_job job_id
    (λ j, mkJob (jobId j) (filename j) (studyId j) (status j) (progress j) v)
    (SetMessage job_id v).

(** [await stage(...)]: the call is logged, then the stage runs. *)
Definition call {A} (s : stage) (m : M world A) : M world A :=
  modify (with_log (Called s));; m.

(** A stage run on the frame object held by the caller: its value and
    the state it leaves the object in. *)
Definition on_frame {A} (m : M DataFrame A) (data : DataFrame) : M world (A * DataFrame) :=
  λ w, match m data with
       | (Ok a, data') => (Ok (a, data'), w)
       | (Raise e, _) => (Raise e, w)
       end.

(** A stage run on the database. *)
Definition on_db {A} (m : M database A) : M world A :=
  λ w, match m (db w) with
       | (r, d) => (r, mkWorld (jobs w) (tasks w) d (log w))
       end.

Section Orchestrator.
Context `{Pandas}.

(** The surroundings of one run: what [pd.read_csv] gives for a path, and
    the clock reading taken by the validation. *)
Variable read_csv : string → result DataFrame.
Variable now : Z.

Definition DATA_DIR : string := "/app/data/".

(** [extract_data] *)
Definition extract_data (filename : string) : result DataFrame :=
  let filename := DATA_DIR ++ filename in
  read_csv filename.

Definition any_Exception (e : exn) : bool := true.

(** [etl_pipeline(filename, jobs, job_id)]; [jobs] is the dictionary of the
    world. *)
Definition etl_pipeline (filename job_id : string) : M world Datatypes.unit :=
  try_except
    (set_message job_id "Extracting data";;
     data ← call Extract (lift (extract_data filename));
     set_progress job_id 25;;

     set_message job_id "Transforming data";;
     data ← call Transform (lift (transform_data data));
     set_progress job_id 50;;

     set_message job_id "Validating data";;
     '(is_valid, data) ← call Validate (on_frame (validate_data now) data);
     if negb is_valid then
       set_status job_id "failed";;
       set_message job_id "Data validation failed";;
       set_progress job_id 100
     else
       set_progress job_id 75;;

       set_message job_id "Loading data into database";;
       call Load (on_db (load_data data));;
       set_progress job_id 100;;

       set_status job_id "completed";;
       set_message job_id "ETL process completed successfully")
    any_Exception
    (λ e,
       set_status job_id "failed";;
       set_message job_id ("ETL process failed: " ++ str_exn e);;
       set_progress job_id 100).

End Orchestrator.

(** ** main.py *)

(** The event loop runs a task by running its coroutine; when the task
    is done, its callback [tasks.discard] takes it out of [tasks]. *)
Definition discard (t : task) (w : world) : world :=
  mkWorld (jobs w) (List.filter (λ t', negb (bool_decide (t' = t))) (tasks w))
          (db w) (log w).

Definition run_task `{Pandas} (read_csv : string → result DataFrame) (now : Z)
    (t : task) : M world Datatypes.unit := λ w,
  match etl_pipeline read_csv now (t_filename t) (t_job_id t) w with
  | (r, w') => (r, discard t w')
  end.

Record ETLJobRequest := mkRequest {
  req_jobId : string;
  req_filename : string;
  req_studyId : option string
}.

Record ETLJobResponse := mkResponse {
  resp_jobId : string;
  resp_status : string;
  resp_message : string
}.

(** [asyncio.create_task(...)] followed by [tasks.add(task)]: the task is
    scheduled; it starts once [submit_job] has returned. *)
Definition create_task (t : task) : M world Datatypes.unit :=
  modify (λ w, mkWorld (jobs w) (t :: tasks w) (db w) (log w)).

(** [submit_job] *)
Definition submit_job (job_request : ETLJobRequest) : M world ETLJobResponse :=
  let job_id := req_jobId job_request in
  known ← gets (λ w, bool_decide (is_Some (jobs w !! job_id)));
  if (known : bool) then
    lift (Raise (HTTPException 400 "Job ID already exists"))
  else
    modify (with_jobs <[job_id :=
      mkJob job_id (req_filename job_request) (req_studyId job_request)
            "running" 0 "Job started"]>);;
    create_task (mkTask (req_filename job_request) job_id);;
    mret (mkResponse job_id "running" "Job submitted successfully").

Record ETLJobStatus := mkStatus {
  st_jobId : string;
  st_status : string;
  st_progress : option Z;
  st_message : option string
}.

(** [jobs[job_id]] *)
Definition getitem_job (job_id : string) : M world Job := λ w,
  match jobs w !! job_id with
  | Some j => (Ok j, w)
  | None => (Raise (KeyError job_id), w)
  end.

(** [health_check] *)
Definition health_check : M world (list (string * string)) :=
  mret [("status", "healthy"); ("service", "etl")].

(** [get_job_status]; [job.get(k)] is [None] only for a missing key, and
    the dictionaries of the registry have all their keys. *)
Definition get_job_status (job_id : string) : M world ETLJobStatus :=
  known ← gets (λ w, bool_decide (is_Some (jobs w !! job_id)));
  if negb known then
    lift (Raise (HTTPException 404 "Job not found"))
  else
    job ← getitem_job job_id;
    mret (mkStatus job_id (status job) (Some (progress job)) (Some (message job))).

(** [get_job_details] *)
Definition get_job_details (job_id : string) : M world Job :=
  known ← gets (λ w, bool_decide (is_Some (jobs w !! job_id)));
  if negb known then
    lift (Raise (HTTPException 404 "Job not found"))
  else
    getitem_job job_id.

(* ===================================================================== *)
(** * Vocabulary of the statements *)
(* ===================================================================== *)

(** The dtypes asserted by [transform_data]. *)
Definition expected_dtypes : cols dtype :=
  Cols d_string d_string d_string d_Float64 d_string d_datetime_utc d_string d_Float64.

(** The first two steps of [transform_data]: the rows without a missing
    value whose timestamp parses, with the parsed timestamp in place. *)
Definition filtered `{Pandas} (data : DataFrame) : result DataFrame :=
  let data := dropna data in
  ts ← to_datetime (getitem (@timestamp) data);
  Ok (dropna_timestamp (setitem_timestamp data ts)).

(** What [pd.to_datetime] makes of a text cell of the column [col]. *)
Definition parsed `{Pandas} (col : list cell) (c : cell) : cell :=
  match c with
  | Some (Str s) =>
      match parse_datetime col s with
      | Some (tz, ns) => Some (Timestamp tz ns)
      | None => None
      end
  | _ => None
  end.

Definition is_time_or_na (c : cell) : bool :=
  match c with None | Some (Timestamp _ _) => true | _ => false end.

(** A value of the kind its column's dtype holds. *)
Definition conforms (d : dtype) (c : cell) : bool :=
  match c, d with
  | None, (d_int64 | d_bool) => false
  | None, _ => true
  | Some (Str _), (d_object | d_string) => true
  | Some (Int _), (d_int64 | d_Int64) => true
  | Some (Float _), (d_float64 | d_Float64) => true
  | Some (Bool _), (d_bool | d_boolean) => true
  | Some (Timestamp tz _), d_datetime tz' => bool_decide (tz = tz')
  | Some (Timestamp _ _), d_object => true
  | _, _ => false
  end.

Definition well_typed (data : DataFrame) : bool :=
  forallb (λ r, cols_forallb id (cols_map2 conforms (dtypes data) r)) (rows data).

(** A cleaned record set: the asserted dtypes, values of those dtypes, and
    no missing value. *)
Definition cleaned (data : DataFrame) : bool :=
  bool_decide (dtypes data = expected_dtypes)
  && well_typed data
  && forallb (cols_forallb notna) (rows data).

(** The reading of a numeric cell and of a timestamp cell. *)
Definition value_of (r : row) : Q := default 0%Q (num (value r)).
Definition instant (r : row) : Z :=
  match timestamp r with
  | Some (Timestamp _ ns) => ns
  | _ => 0%Z
  end.

(** The four rules of the validation stage. *)
Definition units_of (m : cell) (data : DataFrame) (u : cell) : Prop :=
  ∃ r, r ∈ rows data ∧ measurement_type r = m ∧ unit r = u.

Definition rules (now : Z) (data : DataFrame) : Prop :=
  (∀ r, r ∈ rows data → (0 <= value_of r)%Q)
  ∧ (∀ r, r ∈ rows data → (0 <= score r)%Q ∧ (score r <= 1)%Q)
  ∧ (∀ r, r ∈ rows data → (instant r <= now)%Z)
  ∧ (∀ m, (∃ r, r ∈ rows data ∧ measurement_type r = m) →
          ∃ u, ∀ u', units_of m data u' ↔ u' = u).

(** The checks of [validate_data] as a value: what they raise, if
    anything. *)
Definition unit_check (g : cell * DataFrame) : bool :=
  (length (unique (getitem (@unit) g.2)) =? 1)%nat.

Definition checks (now : Z) (data : DataFrame) : result Datatypes.unit :=
  ok ← series_ge (getitem (@value) data) 0 ≫= py_all;
  py_assert ok;;
  ok ← between (getitem (@quality_score) data) 0 1 ≫= py_all;
  py_assert ok;;
  ok ← series_le_instant (getitem (@timestamp) data) now ≫= py_all;
  py_assert ok;;
  py_assert (forallb unit_check (groupby_measurement_type data)).

Definition verdict (now : Z) (data : DataFrame) : result bool :=
  match checks now data with
  | Ok _ => Ok true
  | Raise AssertionError => Ok false
  | Raise e => Raise e
  end.

(** The state of a job and the stages a run went through. *)
Definition job_is (w : world) (job_id st : string) (p : Z) (msg : string) : Prop :=
  ∃ j, jobs w !! job_id = Some j ∧ status j = st ∧ progress j = p ∧ message j = msg.

Definition stages_called (evs : list event) : list stage :=
  omap (λ ev, match ev with Called s => Some s | _ => None end) evs.

(** How a run ends, and what it writes on the way there. *)
Inductive outcome :=
| Failed_in (s : stage) (e : exn)
| Rejected
| Completed.

Definition outcome_of `{Pandas} (read_csv : string → result DataFrame) (now : Z)
    (filename : string) : outcome :=
  match extract_data read_csv filename with
  | Raise e => Failed_in Extract e
  | Ok data =>
      match transform_data data with
      | Raise e => Failed_in Transform e
      | Ok data =>
          match validate_data now data with
          | (Raise e, _) => Failed_in Validate e
          | (Ok false, _) => Rejected
          | (Ok true, _) => Completed
          end
      end
  end.

Definition on_failure (job_id : string) (e : exn) : list event :=
  [SetStatus job_id "failed";
   SetMessage job_id ("ETL process failed: " ++ str_exn e);
   SetProgress job_id 100].

Definition through_extract (job_id : string) : list event :=
  [SetMessage job_id "Extracting data"; Called Extract].
Definition through_transform (job_id : string) : list event :=
  through_extract job_id
  ++ [SetProgress job_id 25; SetMessage job_id "Transforming data"; Called Transform].
Definition through_validate (job_id : string) : list event :=
  through_transform job_id
  ++ [SetProgress job_id 50; SetMessage job_id "Validating data"; Called Validate].

Definition events_of (job_id : string) (o : outcome) : list event :=
  match o with
  | Failed_in Extract e => through_extract job_id ++ on_failure job_id e
  | Failed_in Transform e => through_transform job_id ++ on_failure job_id e
  | Failed_in _ e => through_validate job_id ++ on_failure job_id e
  | Rejected =>
      through_validate job_id
      ++ [SetStatus job_id "failed"; SetMessage job_id "Data validation failed";
          SetProgress job_id 100]
  | Completed =>
      through_validate job_id
      ++ [SetProgress job_id 75; SetMessage job_id "Loading data into database";
          Called Load; SetProgress job_id 100; SetStatus job_id "completed";
          SetMessage job_id "ETL process completed successfully"]
  end.

Definition final_job (j : Job) (o : outcome) : Job :=
  match o with
  | Failed_in _ e =>
      mkJob (jobId j) (filename j) (studyId j) "failed" 100
            ("ETL process failed: " ++ str_exn e)
  | Rejected =>
      mkJob (jobId j) (filename j) (studyId j) "failed" 100 "Data validation failed"
  | Completed =>
      mkJob (jobId j) (filename j) (studyId j) "completed" 100
            "ETL process completed successfully"
  end.

(** The world after a run has written [j] under [job_id] and logged [evs]. *)
Definition upd (w : world) (job_id : string) (j : Job) (evs : list event) : world :=
  mkWorld (<[job_id := j]> (jobs w)) (tasks w) (db w) (log w ++ evs).

(** The calls the service answers, and the world after a sequence of them. *)
Inductive request :=
| Submit (job_request : ETLJobRequest)
| RunTask (read_csv : string → result DataFrame) (now : Z) (t : task)
| GetStatus (job_id : string)
| GetDetails (job_id : string)
| Health.

Definition serve `{Pandas} (q : request) (w : world) : world :=
  match q with
  | Submit job_request => (submit_job job_request w).2
  | RunTask read_csv now t => (run_task read_csv now t w).2
  | GetStatus job_id => (get_job_status job_id w).2
  | GetDetails job_id => (get_job_details job_id w).2
  | Health => (health_check w).2
  end.

Definition serve_all `{Pandas} (qs : list request) (w : world) : world :=
  fold_left (λ w q, serve q w) qs w.

(** The progress values a run writes, in order. *)
Definition progress_written (evs : list event) : list Z :=
  omap (λ ev, match ev with SetProgress _ v => Some v | _ => None end) evs.

(** The job an event writes to, if it writes. *)
Definition written_job (ev : event) : option string :=
  match ev with
  | Called _ => None
  | SetStatus id _ | SetProgress id _ | SetMessage id _ => Some id
  end.

(** What the registry holds at rest: each dictionary under its own id, with
    a status and a progress of the job model. *)
Definition job_ok (id : string) (j : Job) : Prop :=
  jobId j = id
  ∧ status j ∈ ["running"; "completed"; "failed"]
  ∧ progress j ∈ [0; 25; 50; 75; 100]%Z.

Definition registry_ok (w : world) : Prop :=
  ∀ id j, jobs w !! id = Some j → job_ok id j.

(** The kinds of value a cleaned row holds. *)
Definition is_text (c : cell) : Prop := ∃ s, c = Some (Str s).
Definition is_float (c : cell) : Prop := ∃ q, c = Some (Float q).
Definition is_utc_instant (c : cell) : Prop := ∃ ns, c = Some (Timestamp (Some 0%Z) ns).

Definition typed_row (r : row) : Prop :=
  is_text (study_id r) ∧ is_text (participant_id r) ∧ is_text (measurement_type r)
  ∧ is_float (value r) ∧ is_text (unit r) ∧ is_utc_instant (timestamp r)
  ∧ is_text (site_id r) ∧ is_float (quality_score r).

(* ===================================================================== *)
(** * A pandas to compute with *)
(* ===================================================================== *)

(** A stable insertion sort, largest key first, and a parser for the ISO
    8601 form [YYYY-MM-DDTHH:MM:SS] followed by nothing, [Z] or [+HH:MM] /
    [-HH:MM]. They stand for pandas in the examples; the theorems hold for
    every [Pandas]. *)
Module Example_pandas.

Fixpoint insert_desc (key : row → Q) (x : row) (l : list row) : list row :=
  match l with
  | [] => [x]
  | y :: l' => if Qle_bool (key y) (key x) then x :: y :: l' else y :: insert_desc key x l'
  end.

Definition isort_desc (key : row → Q) (l : list row) : list row :=
  foldr (insert_desc key) [] l.

Definition digit (a : ascii) : option Z :=
  let n := Z.of_nat (nat_of_ascii a) in
  if ((48 <=? n) && (n <=? 57))%Z then Some (n - 48)%Z else None.

Fixpoint number_from (acc : Z) (s : string) : option Z :=
  match s with
  | EmptyString => Some acc
  | String a s' => d ← digit a; number_from (10 * acc + d)%Z s'
  end.

Definition number (pos len : nat) (s : string) : option Z :=
  let t := substring pos len s in
  if (String.length t =? len)%nat then number_from 0%Z t else None.

Definition expect (pos : nat) (allowed : list string) (s : string) : option Datatypes.unit :=
  if bool_decide (substring pos 1 s ∈ allowed) then Some tt else None.

Definition in_range (lo x hi : Z) : option Datatypes.unit :=
  if ((lo <=? x) && (x <=? hi))%Z then Some tt else None.

(** Days from 1970-01-01 to a date of the proleptic Gregorian calendar. *)
Definition days_from_civil (y m d : Z) : Z :=
  let y' := (if m <=? 2 then y - 1 else y)%Z in
  let era := (y' / 400)%Z in
  let yoe := (y' - era * 400)%Z in
  let doy := ((153 * (if m <=? 2 then m + 9 else m - 3) + 2) / 5 + d - 1)%Z in
  let doe := (yoe * 365 + yoe / 4 - yoe / 100 + doy)%Z in
  (era * 146097 + doe - 719468)%Z.

Definition offset (s : string) : option (option Z) :=
  match s with
  | EmptyString => Some None
  | "Z" => Some (Some 0%Z)
  | _ =>
      sign ← (match substring 0 1 s with
              | "+" => Some 1%Z
              | "-" => Some (-1)%Z
              | _ => None
              end);
      hh ← number 1 2 s; expect 3 [":"] s;; mm ← number 4 2 s;
      in_range 0 hh 23;; in_range 0 mm 59;;
      if (String.length s =? 6)%nat then Some (Some (sign * (hh * 60 + mm))%Z) else None
  end.

Definition parse_iso (s : string) : option (option Z * Z) :=
  y ← number 0 4 s; expect 4 ["-"] s;; mo ← number 5 2 s; expect 7 ["-"] s;;
  d ← number 8 2 s; expect 10 ["T"; " "] s;;
  h ← number 11 2 s; expect 13 [":"] s;; mi ← number 14 2 s; expect 16 [":"] s;;
  se ← number 17 2 s;
  in_range 1 mo 12;; in_range 1 d 31;; in_range 0 h 23;; in_range 0 mi 59;;
  in_range 0 se 59;;
  tz ← offset (substring 19 (String.length s - 19) s);
  let wall := (days_from_civil y mo d * 86400 + h * 3600 + mi * 60 + se)%Z in
  Some (tz, match tz with
            | None => (wall * 1000000000)%Z
            | Some off => ((wall - off * 60) * 1000000000)%Z
            end).

End Example_pandas.

(* ===================================================================== *)
(** * Sample data *)
(* ===================================================================== *)

Module Sample.

(** The dtypes [pd.read_csv] gives the columns of a well-formed file. *)
Definition raw_dtypes : cols dtype :=
  Cols d_object d_object d_object d_float64 d_object d_object d_object d_float64.

Definition raw_row (participant measurement : string) (v : Q) (u : option string)
    (t : string) (q : Q) : row :=
  Cols (Some (Str "STUDY001")) (Some (Str participant)) (Some (Str measurement))
       (Some (Float v)) (Str <$> u) (Some (Str t)) (Some (Str "SITE_A"))
       (Some (Float q)).

Definition clean_row (participant measurement : string) (v : Q) (u : string)
    (ns : Z) (q : Q) : row :=
  Cols (Some (Str "STUDY001")) (Some (Str participant)) (Some (Str measurement))
       (Some (Float v)) (Some (Str u)) (Some (Timestamp (Some 0%Z) ns))
       (Some (Str "SITE_A")) (Some (Float q)).

(** 2024-01-15T09:30:00Z and 2025-01-01T00:00:00Z, in nanoseconds. *)
Definition t_sample : Z := 1705311000000000000.
Definition t_now : Z := 1735689600000000000.

(** Scenario A: three rows, one without a unit. *)
Definition scenario_A : DataFrame := Frame raw_dtypes
  [raw_row "P1" "bp" (1205 # 10) (Some "mmHg") "2024-01-15T09:30:00Z" (9 # 10);
   raw_row "P2" "bp" (1185 # 10) None "2024-01-15T09:30:00Z" (8 # 10);
   raw_row "P3" "hr" (725 # 10) (Some "bpm") "2024-01-15T09:30:00Z" (95 # 100)].

(** Scenario B: two rows for ("P1", "bp"), scores 0.9 and 0.7. *)
Definition scenario_B : DataFrame := Frame raw_dtypes
  [raw_row "P1" "bp" (1205 # 10) (Some "mmHg") "2024-01-15T09:30:00Z" (9 # 10);
   raw_row "P1" "bp" (1185 # 10) (Some "mmHg") "2024-01-15T09:30:00Z" (7 # 10)].

Definition scenario_B_out : DataFrame := Frame expected_dtypes
  [clean_row "P1" "bp" (1205 # 10) "mmHg" t_sample (9 # 10)].

(** Two rows for ("P1", "bp"); the one with the better score has no unit. *)
Definition best_incomplete : row :=
  raw_row "P1" "bp" (1205 # 10) None "2024-01-15T09:30:00Z" (9 # 10).
Definition second_best : row :=
  raw_row "P1" "bp" (1185 # 10) (Some "mmHg") "2024-01-15T09:30:00Z" (7 # 10).
Definition second_best_clean : row :=
  clean_row "P1" "bp" (1185 # 10) "mmHg" t_sample (7 # 10).

(** A file whose timestamps carry no timezone. *)
Definition naive_row : row :=
  raw_row "P1" "bp" (1205 # 10) (Some "mmHg") "2024-01-15 09:30:00" (9 # 10).
Definition naive_file : DataFrame := Frame raw_dtypes [naive_row].

(** Scenario C: "bp" measured in mmHg and in kPa. *)
Definition scenario_C : DataFrame := Frame expected_dtypes
  [clean_row "P1" "bp" (1205 # 10) "mmHg" t_sample (9 # 10);
   clean_row "P2" "bp" (16 # 1) "kPa" t_sample (8 # 10)].

(** A record dated 2026-01-01T00:00:00Z, seen the day before and the day
    after. *)
Definition dated_2026 : DataFrame := Frame expected_dtypes
  [clean_row "P1" "bp" (1205 # 10) "mmHg" 1767225600000000000 (9 # 10)].
Definition day_before : Z := 1767139200000000000.
Definition day_after : Z := 1767312000000000000.

(** A file in which "bp" comes in mmHg and in kPa. *)
Definition mixed_units_file : DataFrame := Frame raw_dtypes
  [raw_row "P1" "bp" (1205 # 10) (Some "mmHg") "2024-01-15T09:30:00Z" (9 # 10);
   raw_row "P2" "bp" (165 # 10) (Some "kPa") "2024-01-15T09:30:00Z" (8 # 10)].

(** A disk with three files, and a registry with one job. *)
Definition disk (path : string) : result DataFrame :=
  if bool_decide (path = "/app/data/sample.csv") then Ok scenario_B
  else if bool_decide (path = "/app/data/naive.csv") then Ok naive_file
  else if bool_decide (path = "/app/data/mixed_units.csv") then Ok mixed_units_file
  else Raise (FileNotFoundError ("[Errno 2] No such file or directory: '" ++ path ++ "'")).

(** A file with a header and no rows, and a file whose values are all
    whole numbers. *)
Definition header_only : DataFrame :=
  Frame (Cols d_object d_object d_object d_object d_object d_object d_object d_object) [].


Definition job_1 : Job := mkJob "job-1" "sample.csv" None "running" 0 "Job started".
Definition registry : world := mkWorld {[ "job-1" := job_1 ]} [] [] [].
Definition empty_world : world := mkWorld ∅ [] [] [].

(** A sequence of calls to the service: submissions, runs and queries. *)
Definition day_of_calls : list request :=
  [Submit (mkRequest "job-2" "naive.csv" (Some "STUDY001"));
   RunTask disk t_now (mkTask "naive.csv" "job-2");
   GetStatus "job-2";
   RunTask disk t_now (mkTask "sample.csv" "job-1");
   Submit (mkRequest "job-1" "sample.csv" None);
   GetDetails "job-3";
   Health].

End Sample.

(* ===================================================================== *)
(** * The example pandas is a pandas *)
(* ===================================================================== *)

Module Example_pandas_instance.
Import Example_pandas.

Lemma insert_desc_perm key x l : Permutation (insert_desc key x l) (x :: l).
Proof.
  induction l as [|y l IH]; simpl; [done|].
  destruct (Qle_bool (key y) (key x)); [done|].
  rewrite IH. apply perm_swap.
Qed.

Lemma isort_desc_perm key l : Permutation (isort_desc key l) l.
Proof.
  induction l as [|x l IH]; simpl; [done|].
  rewrite insert_desc_perm. by constructor.
Qed.

Lemma insert_desc_sorted key x l :
  StronglySorted (desc key) l → StronglySorted (desc key) (insert_desc key x l).
Proof.
  induction 1 as [|y l Hl IH Hy]; simpl.
  - repeat constructor.
  - destruct (Qle_bool (key y) (key x)) eqn:E.
    + apply Qle_bool_iff in E. constructor; [by constructor|].
      constructor; [exact E|].
      eapply Forall_impl; [exact Hy|]. intros z Hz. unfold desc in *.
      eapply Qle_trans; [exact Hz | exact E].
    + constructor; [exact IH|].
      rewrite insert_desc_perm. constructor; [|exact Hy].
      unfold desc. destruct (Qlt_le_dec (key x) (key y)) as [Hlt|Hle].
      * by apply Qlt_le_weak.
      * apply Qle_bool_iff in Hle. congruence.
Qed.

Lemma isort_desc_sorted key l : StronglySorted (desc key) (isort_desc key l).
Proof.
  induction l as [|x l IH]; simpl; [constructor|].
  by apply insert_desc_sorted.
Qed.

#[export] Instance pandas : Pandas := {
  parse_datetime := λ _, parse_iso;
  sort_values_desc := isort_desc;
  sort_values_perm := isort_desc_perm;
  sort_values_sorted := isort_desc_sorted
}.

End Example_pandas_instance.
Export Example_pandas_instance.

(* ===================================================================== *)
(** * The transformation stage *)
(* ===================================================================== *)

Section Transform_facts.
Context `{Pandas}.

Lemma set_timestamp_same {A} (r : cols A) : set_timestamp (timestamp r) r = r.
Proof. by destruct r. Qed.

Lemma assign_cells_same (rs : list row) : assign_cells (map timestamp rs) rs = rs.
Proof.
  induction rs as [|r rs IH]; simpl; [done|].
  by rewrite set_timestamp_same, IH.
Qed.

(** Every row after the assignment is a row from before, with some cell
    as its timestamp. *)
Lemma assign_cells_elem cs rs r' :
  r' ∈ assign_cells cs rs → ∃ r, r ∈ rs ∧ r' = set_timestamp (timestamp r') r.
Proof.
  revert cs. induction rs as [|r rs IH]; intros cs Hin.
  - destruct cs; simpl in Hin; by apply elem_of_nil in Hin.
  - destruct cs as [|c cs]; simpl in Hin.
    + exists r'. split; [done|]. by rewrite set_timestamp_same.
    + apply elem_of_cons in Hin as [->|Hin].
      * exists r. split; [left|]. by destruct r.
      * destruct (IH _ Hin) as (r0 & ? & ?). exists r0. split; [by right|done].
Qed.

Lemma convert_cell_keep d d' c : d' ≠ d_Int64 → convert_cell d d' c = c.
Proof. intros Hd. by destruct d, d', c as [[]|]. Qed.

(** When the assertions hold, [convert_dtypes] changed no value. *)
Lemma convert_dtypes_rows data :
  dtypes (convert_dtypes data) = expected_dtypes →
  rows (convert_dtypes data) = rows data.
Proof.
  unfold convert_dtypes. simpl. intros E. rewrite E.
  rewrite <- (map_id (rows data)) at 2. apply map_ext. intros [a b c d e f g h].
  unfold cols_map2, expected_dtypes; simpl.
  by rewrite !convert_cell_keep.
Qed.

(** One [assert data[c].dtype == 'd']: either the dtype is the asserted one,
    or both sides have raised. *)
Ltac assert_step x :=
  match goal with
  | |- context [bool_decide (x = ?v)] =>
      destruct (decide (x = v)) as [->|];
      [|by rewrite (bool_decide_eq_false_2 (x = v))]
  end.

(** [transform_data] is the two filters, then the dtype conversion and
    its assertions, then the deduplication. *)
Lemma transform_data_unfold data :
  transform_data data =
  (kept ← filtered data;
   if bool_decide (dtypes (convert_dtypes kept) = expected_dtypes)
   then Ok (Frame expected_dtypes (drop_dups [] (sort_values_desc score (rows kept))))
   else Raise AssertionError).
Proof.
  unfold transform_data, filtered.
  destruct (to_datetime _) as [ts|e]; [|done].
  cbn [mbind result_bind].
  set (kept := dropna_timestamp _).
  case_bool_decide as E.
  - pose proof (convert_dtypes_rows _ E) as Hrows.
    unfold drop_duplicates, sort_values. rewrite Hrows, E. reflexivity.
  - destruct (dtypes (convert_dtypes kept)) as [a b c d e f g h]. simpl.
    unfold dtype_is, expected_dtypes in *.
    assert_step a. assert_step b. assert_step c. assert_step d.
    assert_step e. assert_step f. assert_step g. assert_step h.
    by destruct E.
Qed.

(** *** Deduplication *)

Lemma drop_dups_elem seen l r :
  r ∈ drop_dups seen l → r ∈ l ∧ key r ∉ seen.
Proof.
  revert seen. induction l as [|x l IH]; intros seen; simpl.
  - intros Hin. by apply elem_of_nil in Hin.
  - case_bool_decide as Hseen.
    + intros Hin. destruct (IH _ Hin). split; [by right|done].
    + intros [->|Hin]%elem_of_cons.
      * split; [by left|done].
      * destruct (IH _ Hin) as [? Hk]. split; [by right|].
        intros ?. apply Hk. by right.
Qed.

Lemma drop_dups_NoDup seen l : NoDup (map key (drop_dups seen l)).
Proof.
  revert seen. induction l as [|x l IH]; intros seen; simpl.
  - constructor.
  - case_bool_decide; [apply IH|]. simpl. constructor; [|apply IH].
    intros (r & Hk & Hin)%list_elem_of_fmap.
    apply drop_dups_elem in Hin as [_ Hn]. apply Hn. rewrite <- Hk. by left.
Qed.

(** A retained row is the first row of the list with its pair. *)
Lemma drop_dups_first seen l r :
  r ∈ drop_dups seen l →
  ∃ l1 l2, l = (l1 ++ r :: l2)%list ∧ key r ∉ map key l1.
Proof.
  revert seen. induction l as [|x l IH]; intros seen; simpl.
  - intros Hin. by apply elem_of_nil in Hin.
  - case_bool_decide as Hseen.
    + intros Hin. destruct (IH _ Hin) as (l1 & l2 & -> & Hk).
      apply drop_dups_elem in Hin as [_ Hn].
      exists (x :: l1), l2. split; [done|]. simpl.
      intros [E|?]%elem_of_cons; [|done]. apply Hn. by rewrite E.
    + intros [->|Hin]%elem_of_cons.
      * exists [], l. split; [done|]. simpl. apply not_elem_of_nil.
      * destruct (IH _ Hin) as (l1 & l2 & -> & Hk).
        apply drop_dups_elem in Hin as [_ Hn].
        exists (x :: l1), l2. split; [done|]. simpl.
        intros [E|?]%elem_of_cons; [|done]. apply Hn. rewrite E. by left.
Qed.

(** Every pair of the list keeps one row. *)
Lemma drop_dups_covers seen l r' :
  r' ∈ l → key r' ∉ seen → ∃ r, r ∈ drop_dups seen l ∧ key r = key r'.
Proof.
  revert seen. induction l as [|x l IH]; intros seen Hin Hn.
  - by apply elem_of_nil in Hin.
  - simpl. apply elem_of_cons in Hin as [->|Hin].
    + rewrite bool_decide_eq_false_2 by done. exists x. split; [by left|done].
    + case_bool_decide as Hseen; [by apply IH|].
      destruct (decide (key r' = key x)) as [E|Hne].
      * exists x. split; [by left|done].
      * destruct (IH (key x :: seen) Hin) as (r & ? & ?).
        { by intros [?|?]%elem_of_cons. }
        exists r. split; [by right|done].
Qed.

(** Nothing goes when the pairs are already distinct. *)
Lemma drop_dups_id seen l :
  NoDup (map key l) → (∀ r, r ∈ l → key r ∉ seen) → drop_dups seen l = l.
Proof.
  revert seen. induction l as [|x l IH]; intros seen Hnd Hseen; simpl; [done|].
  apply NoDup_cons in Hnd as [Hx Hnd].
  rewrite bool_decide_eq_false_2 by (apply Hseen; by left).
  f_equal. apply IH; [done|]. intros r Hr [E|?]%elem_of_cons.
  - apply Hx. rewrite <- E. by apply list_elem_of_fmap_2.
  - apply (Hseen r); [by right|done].
Qed.

Lemma sorted_after key l1 r l2 r' :
  StronglySorted (desc key) (l1 ++ r :: l2)%list → r' ∈ l2 → (key r' <= key r)%Q.
Proof.
  induction l1 as [|x l1 IH]; simpl; intros Hs Hin.
  - apply StronglySorted_inv in Hs as [_ Hall].
    by apply (proj1 (List.Forall_forall _ _) Hall), list_elem_of_In.
  - apply StronglySorted_inv in Hs as [Hs _]. by apply IH.
Qed.

(** After the descending sort, the retained row of a pair has the
    greatest score among the rows with that pair. *)
Lemma first_of_sorted_is_max l r r' :
  StronglySorted (desc score) l →
  r ∈ drop_dups [] l → r' ∈ l → key r' = key r → (score r' <= score r)%Q.
Proof.
  intros Hs Hr Hr' Hk.
  destruct (drop_dups_first _ _ _ Hr) as (l1 & l2 & -> & Hfirst).
  apply elem_of_app in Hr' as [Hin|[->|Hin]%elem_of_cons].
  - destruct Hfirst. rewrite <- Hk. by apply list_elem_of_fmap_2.
  - apply Qle_refl.
  - by eapply sorted_after.
Qed.

(** *** The two filters *)

Lemma filter_all {A} (f : A → bool) (l : list A) :
  (∀ x, x ∈ l → f x = true) → List.filter f l = l.
Proof.
  induction l as [|x l IH]; intros Hall; simpl; [done|].
  rewrite (Hall x) by (by left). f_equal. apply IH. intros y ?. apply Hall. by right.
Qed.

Lemma elem_of_List_filter {A} (f : A → bool) (l : list A) x :
  x ∈ List.filter f l ↔ x ∈ l ∧ f x = true.
Proof. by rewrite !list_elem_of_In, filter_In. Qed.

Lemma notna_set_timestamp c (r : row) :
  cols_forallb notna r = true → notna c = true →
  cols_forallb notna (set_timestamp c r) = true.
Proof.
  destruct r. unfold cols_forallb. simpl. intros Hr Hc.
  repeat (apply andb_prop in Hr as [Hr ?]). by repeat (apply andb_true_intro; split).
Qed.

(** A row that passes both filters is a complete row of the input with
    its timestamp replaced by the parsed one, and is complete itself. *)
Lemma filtered_rows data kept r :
  filtered data = Ok kept → r ∈ rows kept →
  cols_forallb notna r = true
  ∧ ∃ r0, r0 ∈ rows data ∧ cols_forallb notna r0 = true
          ∧ r = set_timestamp (timestamp r) r0.
Proof.
  unfold filtered. destruct (to_datetime _) as [ts|e]; [|done].
  cbn [mbind result_bind]. intros [= <-]. simpl.
  intros [Hin Hts]%elem_of_List_filter.
  apply assign_cells_elem in Hin as (r0 & [Hr0 Hc]%elem_of_List_filter & E).
  split.
  - rewrite E. by apply notna_set_timestamp.
  - by exists r0.
Qed.

Lemma transform_data_inv data out :
  transform_data data = Ok out →
  ∃ kept, filtered data = Ok kept
    ∧ dtypes (convert_dtypes kept) = expected_dtypes
    ∧ out = Frame expected_dtypes (drop_dups [] (sort_values_desc score (rows kept))).
Proof.
  rewrite transform_data_unfold. destruct (filtered data) as [kept|e]; [|done].
  cbn [mbind result_bind]. case_bool_decide; [|done]. intros [= <-]. by exists kept.
Qed.

Lemma elem_of_sorted key (l : list row) r : r ∈ sort_values_desc key l ↔ r ∈ l.
Proof. by rewrite (sort_values_perm key l). Qed.

Lemma kept_of_output (kept : DataFrame) r :
  r ∈ drop_dups [] (sort_values_desc score (rows kept)) → r ∈ rows kept.
Proof. intros [Hr _]%drop_dups_elem. by apply elem_of_sorted in Hr. Qed.

Lemma transform_data_complete data out r :
  transform_data data = Ok out → r ∈ rows out → cols_forallb notna r = true.
Proof.
  intros (kept & Hk & _ & ->)%transform_data_inv Hr.
  by apply (filtered_rows _ _ _ Hk), kept_of_output.
Qed.

Lemma transform_data_distinct data out :
  transform_data data = Ok out → NoDup (map key (rows out)).
Proof.
  intros (kept & _ & _ & ->)%transform_data_inv. apply drop_dups_NoDup.
Qed.

(** C2, as amended: when [transform_data] returns, no row of the output has
    a missing field, no two rows share a (participant_id, measurement_type)
    pair, and the rows are taken from those that pass the completeness and
    timestamp filters: each such row's pair keeps exactly one row, whose
    quality score is the greatest among the filtered rows with that pair.
    A filtered row is a complete input row with its timestamp parsed. *)
Theorem transform_data_invariant data out :
  transform_data data = Ok out →
  (∀ r, r ∈ rows out → cols_forallb notna r = true)
  ∧ NoDup (map key (rows out))
  ∧ ∃ kept, filtered data = Ok kept
      ∧ (∀ r', r' ∈ rows kept →
           ∃ r0, r0 ∈ rows data ∧ cols_forallb notna r0 = true
                 ∧ r' = set_timestamp (timestamp r') r0)
      ∧ (∀ r, r ∈ rows out → r ∈ rows kept)
      ∧ (∀ r', r' ∈ rows kept → ∃ r, r ∈ rows out ∧ key r = key r')
      ∧ (∀ r r', r ∈ rows out → r' ∈ rows kept → key r' = key r →
           (score r' <= score r)%Q).
Proof.
  intros Hout.
  split; [intros r; by apply (transform_data_complete data)|].
  split; [by apply (transform_data_distinct data)|].
  destruct (transform_data_inv _ _ Hout) as (kept & Hk & _ & ->). simpl.
  exists kept. split; [done|]. split; [|split; [|split]].
  - intros r' Hr'. by apply (filtered_rows _ _ _ Hk).
  - apply kept_of_output.
  - intros r' Hr'. apply drop_dups_covers; [by apply elem_of_sorted|].
    apply not_elem_of_nil.
  - intros r r' Hr Hr' E.
    eapply first_of_sorted_is_max; [apply sort_values_sorted|exact Hr| |exact E].
    by apply elem_of_sorted.
Qed.

(** C4: when [transform_data] returns on [x], it returns on its own output
    too, with the same dtypes and the same rows up to their order: no row
    goes and the deduplication changes nothing. *)
Theorem transform_data_idempotent x y :
  transform_data x = Ok y →
  ∃ z, transform_data y = Ok z ∧ dtypes z = dtypes y ∧ Permutation (rows z) (rows y).
Proof.
  intros Hxy.
  pose proof (λ r, transform_data_complete _ _ r Hxy) as Hna.
  pose proof (transform_data_distinct _ _ Hxy) as Hnd.
  destruct (transform_data_inv _ _ Hxy) as (kept & _ & _ & ->).
  simpl in *. set (rs := drop_dups [] _) in *.
  assert (Hfil : filtered (Frame expected_dtypes rs) = Ok (Frame expected_dtypes rs)).
  { unfold filtered, dropna. simpl. rewrite (filter_all _ rs) by exact Hna.
    cbn [mbind result_bind]. f_equal.
    unfold dropna_timestamp, setitem_timestamp. simpl.
    rewrite assign_cells_same, filter_all; [done|].
    intros r Hr. specialize (Hna r Hr). destruct r. unfold cols_forallb in Hna.
    simpl in *. repeat (apply andb_prop in Hna as [Hna ?]). done. }
  exists (Frame expected_dtypes (sort_values_desc score rs)).
  rewrite transform_data_unfold, Hfil. cbn [mbind result_bind].
  rewrite bool_decide_eq_true_2 by done. simpl.
  split; [|split; [done|apply sort_values_perm]].
  f_equal. f_equal. apply drop_dups_id; [|intros; apply not_elem_of_nil].
  eapply NoDup_Permutation_proper; [|exact Hnd].
  apply Permutation_map, sort_values_perm.
Qed.

(** The dtype of a parsed column is [datetime64[ns, tz]] only when every
    parsed value carries that offset. *)
Lemma datetime_dtype_tz cs tz0 c tz :
  datetime_dtype cs = d_datetime tz0 → c ∈ cs → tz_of c = Some tz → tz = tz0.
Proof.
  unfold datetime_dtype. intros Hd Hc Htz.
  assert (Hin : tz ∈ omap tz_of cs) by (apply list_elem_of_omap; eauto).
  destruct (omap tz_of cs) as [|t ts]; [by apply elem_of_nil in Hin|].
  destruct (forallb _ ts) eqn:Hall; [|done].
  injection Hd as ->. apply elem_of_cons in Hin as [->|Hin]; [done|].
  rewrite forallb_forall in Hall. apply list_elem_of_In, Hall in Hin.
  by apply bool_decide_eq_true in Hin.
Qed.

Lemma mapM_Ok {A B} (f : A → result B) (g : A → B) (l : list A) :
  (∀ x, x ∈ l → f x = Ok (g x)) → mapM f l = Ok (map g l).
Proof.
  induction l as [|x l IH]; intros Hall; [done|].
  change (mapM f (x :: l)) with (y ← f x; k ← mapM f l; mret (y :: k)).
  rewrite (Hall x) by (by left). rewrite IH by (intros; apply Hall; by right). done.
Qed.

Lemma to_timestamp_text col c :
  is_str_or_na c = true → to_timestamp col c = Ok (parsed col c).
Proof. by destruct c as [[]|]. Qed.

(** C10: once the filters are through, dtypes other than the asserted ones
    make [transform_data] raise [AssertionError]; and this is what happens to
    a text timestamp column in which a complete row carries a timestamp that
    parses but is naive or has an offset other than UTC: the run fails, the
    row is not dropped. *)
Theorem transform_data_dtype_assertion data :
  (∀ kept, filtered data = Ok kept →
     dtypes (convert_dtypes kept) ≠ expected_dtypes →
     transform_data data = Raise AssertionError)
  ∧ (timestamp (dtypes data) = d_object →
     (∀ r, r ∈ rows data → is_str_or_na (timestamp r) = true) →
     (∃ r s tz ns, r ∈ rows data ∧ cols_forallb notna r = true
        ∧ timestamp r = Some (Str s)
        ∧ parse_datetime (map timestamp (rows (dropna data))) s = Some (tz, ns)
        ∧ tz ≠ Some 0%Z) →
     transform_data data = Raise AssertionError).
Proof.
  assert (Hgen : ∀ kept, filtered data = Ok kept →
     dtypes (convert_dtypes kept) ≠ expected_dtypes →
     transform_data data = Raise AssertionError).
  { intros kept Hk Hne. rewrite transform_data_unfold, Hk. cbn [mbind result_bind].
    by rewrite bool_decide_eq_false_2. }
  split; [exact Hgen|].
  intros Hobj Htext (r & s & tz & ns & Hr & Hna & Hts & Hparse & Htz).
  set (rs := List.filter (cols_forallb notna) (rows data)).
  set (cs := map (parsed (map timestamp rs)) (map timestamp rs)).
  assert (Hconv : to_datetime (getitem (@timestamp) (dropna data))
                  = Ok (Ser (datetime_dtype cs) cs)).
  { unfold to_datetime, getitem, dropna. simpl. rewrite Hobj.
    rewrite (mapM_Ok _ (parsed (map timestamp rs))); [done|].
    intros c (r' & -> & [Hr' _]%elem_of_List_filter)%list_elem_of_fmap.
    by apply to_timestamp_text, Htext. }
  eapply Hgen.
  { unfold filtered. rewrite Hconv. reflexivity. }
  assert (Hc : Some (Timestamp tz ns) ∈ cs).
  { unfold cs. rewrite map_map. apply list_elem_of_fmap. exists r. split.
    - rewrite Hts. simpl. unfold dropna in Hparse. simpl in Hparse.
      fold rs in Hparse. by rewrite Hparse.
    - by apply elem_of_List_filter. }
  assert (Hd : datetime_dtype cs ≠ d_datetime_utc).
  { intros E. by apply Htz, (datetime_dtype_tz cs _ _ _ E Hc). }
  intros E. apply (f_equal timestamp) in E. simpl in E.
  unfold datetime_dtype in *. destruct (omap tz_of cs) as [|t ts]; [done|].
  destruct (forallb _ ts); simpl in E; [done|].
  by destruct (existsb _ _ && forallb _ _).
Qed.

End Transform_facts.

(* ===================================================================== *)
(** * The validation stage *)
(* ===================================================================== *)

Section Validation_facts.

Lemma for_each_assert {S A} (p : A → bool) (l : list A) (s : S) :
  for_each l (λ x, lift (py_assert (p x))) s = (py_assert (forallb p l), s).
Proof.
  induction l as [|x l IH]; simpl; [done|].
  unfold mbind, M_bind, lift at 1. destruct (p x); simpl; [apply IH|done].
Qed.

(** [validate_data] hands back the frame as it got it, with the verdict of
    the checks. *)
Lemma validate_data_verdict now data :
  validate_data now data = (verdict now data, data).
Proof.
  unfold validate_data, verdict, checks, try_except.
  unfold mbind at 1 2 3 4 5 6 7 8 9 10 11. unfold M_bind, gets, lift, mret, M_ret.
  destruct (series_ge _ 0 ≫= py_all) as [[]|[]]; try done.
  cbn [mbind result_bind py_assert].
  destruct (between _ 0 1 ≫= py_all) as [[]|[]]; try done.
  cbn [mbind result_bind py_assert].
  destruct (series_le_instant _ now ≫= py_all) as [[]|[]]; try done.
  cbn [mbind result_bind py_assert].
  pose proof (for_each_assert unit_check (groupby_measurement_type data) data) as E.
  unfold lift, unit_check in E. rewrite E. fold unit_check.
  by destruct (forallb unit_check _).
Qed.

Lemma py_all_map {A} (p : A → bool) (l : list A) :
  py_all (map (λ x, Some (p x)) l) = Ok (forallb p l).
Proof. induction l as [|x l IH]; simpl; [done|]. by destruct (p x). Qed.

Lemma zip_with_and_na {A} (p q : A → bool) (l : list A) :
  zip_with and_na (map (λ x, Some (p x)) l) (map (λ x, Some (q x)) l)
  = map (λ x, Some (p x && q x)) l.
Proof.
  induction l as [|x l IH]; simpl; [done|]. rewrite IH. by destruct (p x), (q x).
Qed.

Lemma mapM_Ok_map {A B C} (f : B → result C) (g : A → C) (h : A → B) (l : list A) :
  (∀ x, x ∈ l → f (h x) = Ok (g x)) → mapM f (map h l) = Ok (map g l).
Proof.
  induction l as [|x l IH]; intros Hall; [done|]. simpl.
  change (mapM f (h x :: map h l)) with (y ← f (h x); k ← mapM f (map h l); mret (y :: k)).
  rewrite (Hall x) by (by left). rewrite IH by (intros; apply Hall; by right). done.
Qed.

(** The cells of a cleaned record set. *)
Lemma cleaned_inv data :
  cleaned data = true →
  dtypes data = expected_dtypes
  ∧ ∀ r, r ∈ rows data →
      (∃ v, value r = Some (Float v))
      ∧ (∃ q, quality_score r = Some (Float q))
      ∧ (∃ ns, timestamp r = Some (Timestamp (Some 0%Z) ns))
      ∧ notna (measurement_type r) = true.
Proof.
  unfold cleaned, well_typed. intros [[Hd Hwt]%andb_prop Hna]%andb_prop.
  apply bool_decide_eq_true in Hd. split; [done|]. intros r Hr.
  rewrite forallb_forall in Hwt, Hna. apply list_elem_of_In in Hr.
  specialize (Hwt r Hr). specialize (Hna r Hr). rewrite Hd in Hwt.
  destruct r as [a b c v u t s q]. unfold cols_forallb in *. simpl in *.
  repeat (apply andb_prop in Hwt as [Hwt ?]). repeat (apply andb_prop in Hna as [Hna ?]).
  repeat split.
  - destruct v as [[]|]; try done. by eexists.
  - destruct q as [[]|]; try done. by eexists.
  - destruct t as [[| | | |tz ns]|]; try done.
    match goal with Ht : conforms _ _ = true |- _ => simpl in Ht; apply bool_decide_eq_true in Ht as -> end.
    by eexists.
  - done.
Qed.

Lemma length_remove_dups_one `{EqDecision A} (l : list A) :
  length (remove_dups l) = 1%nat ↔ ∃ u, ∀ x, x ∈ l ↔ x = u.
Proof.
  split.
  - intros Hlen. destruct (remove_dups l) as [|u [|? ?]] eqn:E; try done.
    exists u. intros x. rewrite <- elem_of_remove_dups, E. apply list_elem_of_singleton.
  - intros [u Hu]. pose proof (NoDup_remove_dups l) as Hnd.
    assert (Hu' : ∀ x, x ∈ remove_dups l ↔ x = u).
    { intros x. by rewrite elem_of_remove_dups. }
    destruct (remove_dups l) as [|a t].
    + exfalso. by apply (elem_of_nil u), Hu'.
    + destruct t as [|b t]; [done|]. apply NoDup_cons in Hnd as [Hnot _].
      destruct Hnot. assert (a = u) as -> by (apply Hu'; by left).
      assert (b = u) as -> by (apply Hu'; right; by left). by left.
Qed.

(** The loop over the groups holds exactly when every measurement type
    seen has one unit. *)
Lemma unit_check_rule data :
  (∀ r, r ∈ rows data → notna (measurement_type r) = true) →
  forallb unit_check (groupby_measurement_type data) = true
  ↔ ∀ m, (∃ r, r ∈ rows data ∧ measurement_type r = m) →
         ∃ u, ∀ u', units_of m data u' ↔ u' = u.
Proof.
  intros Hna. unfold groupby_measurement_type. rewrite forallb_forall.
  assert (Hunits : ∀ m u',
    u' ∈ map unit (List.filter (λ r, bool_decide (measurement_type r = m)) (rows data))
    ↔ units_of m data u').
  { intros m u'. unfold units_of. rewrite list_elem_of_fmap. split.
    - intros (r & -> & [Hr E%bool_decide_eq_true]%elem_of_List_filter). by exists r.
    - intros (r & Hr & E & <-). exists r. split; [done|].
      apply elem_of_List_filter. split; [done|]. by apply bool_decide_eq_true. }
  split.
  - intros Hall m (r & Hr & <-).
    assert (Hin : In (measurement_type r,
                      Frame (dtypes data)
                        (List.filter (λ r', bool_decide (measurement_type r' = measurement_type r))
                           (rows data)))
                     (map (λ k, (k, Frame (dtypes data)
                        (List.filter (λ r', bool_decide (measurement_type r' = k)) (rows data))))
                        (remove_dups (List.filter notna (map measurement_type (rows data)))))).
    { apply in_map_iff. eexists. split; [reflexivity|].
      apply list_elem_of_In, elem_of_remove_dups, elem_of_List_filter.
      split; [by apply list_elem_of_fmap_2|by apply Hna]. }
    apply Hall in Hin. unfold unit_check, unique, getitem in Hin. simpl in Hin.
    apply Nat.eqb_eq, length_remove_dups_one in Hin as [u Hu].
    exists u. intros u'. by rewrite <- Hunits.
  - intros Hrule g (k & <- & Hk)%in_map_iff.
    apply list_elem_of_In, elem_of_remove_dups, elem_of_List_filter in Hk as [Hk _].
    apply list_elem_of_fmap in Hk as (r & -> & Hr).
    destruct (Hrule (measurement_type r)) as [u Hu]; [by exists r|].
    unfold unit_check, unique, getitem. simpl.
    apply Nat.eqb_eq, length_remove_dups_one. exists u. intros u'. by rewrite Hunits.
Qed.

(** On a cleaned record set every comparison has a plain boolean for each
    row, so the checks come down to four boolean tests. *)
Lemma checks_cleaned now data :
  cleaned data = true →
  checks now data =
    (py_assert (forallb (λ r, Qle_bool 0 (value_of r)) (rows data));;
     py_assert (forallb (λ r, Qle_bool 0 (score r) && Qle_bool (score r) 1) (rows data));;
     py_assert (forallb (λ r, (instant r <=? now)%Z) (rows data));;
     py_assert (forallb unit_check (groupby_measurement_type data))).
Proof.
  intros [Hd Hrows]%cleaned_inv. unfold checks, series_ge, series_le, between,
    series_ge, series_le, series_cmp_num, series_le_instant, getitem.
  rewrite Hd. simpl.
  rewrite (mapM_Ok_map (cmp_num (λ q, Qle_bool 0 q) d_Float64)
             (λ r, Some (Qle_bool 0 (value_of r))) (@value cell)).
  2:{ intros r Hr. destruct (Hrows r Hr) as ((v & Ev) & _).
      unfold value_of, cell in *. by rewrite Ev. }
  rewrite (mapM_Ok_map (cmp_num (λ q, Qle_bool 0 q) d_Float64)
             (λ r, Some (Qle_bool 0 (score r))) (@quality_score cell)).
  2:{ intros r Hr. destruct (Hrows r Hr) as (_ & (q & Eq) & _).
      unfold score, cell in *. by rewrite Eq. }
  rewrite (mapM_Ok_map (cmp_num (λ q, Qle_bool q 1) d_Float64)
             (λ r, Some (Qle_bool (score r) 1)) (@quality_score cell)).
  2:{ intros r Hr. destruct (Hrows r Hr) as (_ & (q & Eq) & _).
      unfold score, cell in *. by rewrite Eq. }
  rewrite (mapM_Ok_map (le_instant now (d_datetime (Some 0%Z)))
             (λ r, Some (instant r <=? now)%Z) (@timestamp cell)).
  2:{ intros r Hr. destruct (Hrows r Hr) as (_ & _ & (ns & Et) & _).
      unfold instant, cell in *. by rewrite Et. }
  cbn [mbind result_bind]. rewrite zip_with_and_na, !py_all_map. done.
Qed.

Lemma forallb_elem_of {A} (p : A → bool) (l : list A) :
  forallb p l = true ↔ ∀ x, x ∈ l → p x = true.
Proof. rewrite forallb_forall. by setoid_rewrite list_elem_of_In. Qed.

(** C1: on a cleaned record set [validate_data] returns, without raising
    and leaving the frame as it was, and what it returns is true exactly
    when every value is at least 0, every quality score lies in [0, 1],
    every timestamp is at or before the instant of the validation, and every
    measurement type present has exactly one unit. *)
Theorem validate_data_rules now data :
  cleaned data = true →
  ∃ b, validate_data now data = (Ok b, data) ∧ (b = true ↔ rules now data).
Proof.
  intros Hc. rewrite validate_data_verdict. unfold verdict.
  rewrite (checks_cleaned _ _ Hc).
  destruct (cleaned_inv _ Hc) as [_ Hrows].
  assert (Hna : ∀ r, r ∈ rows data → notna (measurement_type r) = true)
    by (intros r Hr; apply (Hrows r Hr)).
  pose proof (unit_check_rule data Hna) as H4.
  unfold rules.
  destruct (forallb (λ r, Qle_bool 0 (value_of r)) _) eqn:E1; cbn.
  2:{ exists false. split; [done|]. split; [done|]. intros (R1 & _).
      rewrite <- E1. apply forallb_elem_of. intros r Hr. by apply Qle_bool_iff, R1. }
  destruct (forallb (λ r, Qle_bool 0 (score r) && Qle_bool (score r) 1) _) eqn:E2; cbn.
  2:{ exists false. split; [done|]. split; [done|]. intros (_ & R2 & _).
      rewrite <- E2. apply forallb_elem_of. intros r Hr. destruct (R2 r Hr).
      apply andb_true_intro. by rewrite !Qle_bool_iff. }
  destruct (forallb (λ r, (instant r <=? now)%Z) _) eqn:E3; cbn.
  2:{ exists false. split; [done|]. split; [done|]. intros (_ & _ & R3 & _).
      rewrite <- E3. apply forallb_elem_of. intros r Hr. by apply Z.leb_le, R3. }
  destruct (forallb unit_check _) eqn:E4; cbn.
  2:{ exists false. split; [done|]. split; [done|]. intros (_ & _ & _ & R4).
      apply H4 in R4. congruence. }
  exists true. split; [done|]. split; [|done]. intros _.
  rewrite forallb_elem_of in E1, E2, E3. split; [|split; [|split]].
  - intros r Hr. by apply Qle_bool_iff, E1.
  - intros r Hr. destruct (andb_prop _ _ (E2 r Hr)). by rewrite <- !Qle_bool_iff.
  - intros r Hr. by apply Z.leb_le, E3.
  - by apply H4.
Qed.

Lemma mapM_ext {A B} (f g : A → result B) (l : list A) :
  (∀ x, x ∈ l → f x = g x) → mapM f l = mapM g l.
Proof.
  induction l as [|x l IH]; intros Hall; [done|].
  change (mapM f (x :: l)) with (y ← f x; k ← mapM f l; mret (y :: k)).
  change (mapM g (x :: l)) with (y ← g x; k ← mapM g l; mret (y :: k)).
  rewrite (Hall x) by (by left). rewrite IH by (intros; apply Hall; by right). done.
Qed.

(** C8, as amended: [validate_data] does not change the frame it is given,
    and its outcome depends on the frame and on the instant it runs at: two
    runs on the same frame give the same outcome when no row's timestamp
    lies after one of the two instants and not after the other, as when
    both run at the same instant. *)
Theorem validate_data_pure data now1 now2 :
  (∀ r tz ns, r ∈ rows data → timestamp r = Some (Timestamp tz ns) →
     (ns <= now1)%Z ↔ (ns <= now2)%Z) →
  (validate_data now1 data).1 = (validate_data now2 data).1
  ∧ (validate_data now1 data).2 = data
  ∧ (validate_data now2 data).2 = data.
Proof.
  intros Hsame. rewrite !validate_data_verdict. simpl. split; [|done].
  unfold verdict, checks.
  assert (E : series_le_instant (getitem (@timestamp) data) now1
              = series_le_instant (getitem (@timestamp) data) now2).
  { unfold series_le_instant, getitem. simpl.
    assert (E : mapM (le_instant now1 (timestamp (dtypes data))) (map timestamp (rows data))
              = mapM (le_instant now2 (timestamp (dtypes data))) (map timestamp (rows data))).
    { apply mapM_ext. intros c (r & -> & Hr)%list_elem_of_fmap.
      unfold le_instant.
      destruct (timestamp r) as [[| | | |[tz|] ns]|] eqn:Et; try done.
      do 2 f_equal. apply eq_true_iff_eq. rewrite !Z.leb_le. by eapply Hsame. }
    by destruct (timestamp (dtypes data)) as [| | | | | | | |[]]. }
  by rewrite E.
Qed.

End Validation_facts.

(* ===================================================================== *)
(** * From the transformation to the validation *)
(* ===================================================================== *)

Section Transform_cleans.
Context `{Pandas}.

Lemma mapM_Ok_inv {A B} (f : A → result B) (l : list A) (l' : list B) :
  mapM f l = Ok l' → Forall2 (λ x y, f x = Ok y) l l'.
Proof.
  revert l'. induction l as [|x l IH]; intros l'.
  - intros [= <-]. constructor.
  - change (mapM f (x :: l)) with (y ← f x; k ← mapM f l; mret (y :: k)).
    destruct (f x) as [y|] eqn:Ex; [|done]. cbn [mbind result_bind].
    destruct (mapM f l) as [k|]; [|done]. cbn. intros [= <-].
    constructor; [done|]. by apply IH.
Qed.

Lemma assign_cells_elem_length cs rs r' :
  length cs = length rs → r' ∈ assign_cells cs rs →
  ∃ r, r ∈ rs ∧ r' = set_timestamp (timestamp r') r ∧ timestamp r' ∈ cs.
Proof.
  revert cs. induction rs as [|r rs IH]; intros cs Hlen Hin.
  - destruct cs; simpl in Hin; by apply elem_of_nil in Hin.
  - destruct cs as [|c cs]; [done|]. simpl in Hin, Hlen.
    apply elem_of_cons in Hin as [->|Hin].
    + exists r. split; [by left|]. split; [by destruct r|]. destruct r. by left.
    + destruct (IH cs) as (r0 & ? & ? & ?); [lia|done|].
      exists r0. split; [by right|]. split; [done|by right].
Qed.

Lemma to_timestamp_shape col c c' :
  to_timestamp col c = Ok c' → is_time_or_na c' = true.
Proof.
  destruct c as [[s|z|q|b|tz ns]|]; simpl; try (by intros [= <-]).
  intros [= <-]. by destruct (parse_datetime col s) as [[] |].
Qed.

Lemma datetime_dtype_cases cs :
  datetime_dtype cs = d_object ∨ ∃ tz, datetime_dtype cs = d_datetime tz.
Proof.
  unfold datetime_dtype. destruct (omap tz_of cs) as [|tz tzs]; [by eauto|].
  destruct (forallb _ tzs); eauto.
Qed.

Lemma datetime_dtype_conforms cs c :
  is_time_or_na c = true → c ∈ cs → conforms (datetime_dtype cs) c = true.
Proof.
  intros Hshape Hin.
  destruct (datetime_dtype_cases cs) as [E|[tz0 E]]; rewrite E.
  - by destruct c as [[]|].
  - destruct c as [[| | | |tz ns]|]; try done. simpl. apply bool_decide_eq_true.
    by apply (datetime_dtype_tz cs tz0 (Some (Timestamp tz ns))).
Qed.

(** [pd.to_datetime] keeps the length of the column and gives values of
    the dtype it announces. *)
Lemma to_datetime_conforms d cs ts :
  to_datetime (Ser d cs) = Ok ts →
  (∀ c, c ∈ cs → conforms d c = true) →
  length (s_values ts) = length cs
  ∧ ∀ c', c' ∈ s_values ts → conforms (s_dtype ts) c' = true.
Proof.
  unfold to_datetime. simpl. intros Hto Hwt.
  assert (Hparse : ∀ r, (cs' ← mapM (to_timestamp cs) cs; Ok (Ser (datetime_dtype cs') cs')) = Ok r →
    length (s_values r) = length cs ∧ ∀ c', c' ∈ s_values r → conforms (s_dtype r) c' = true).
  { intros r. destruct (mapM _ cs) as [cs'|] eqn:Em; [|done]. cbn. intros [= <-]. simpl.
    apply mapM_Ok_inv in Em. split; [symmetry; by eapply Forall2_length|].
    intros c' Hc'. apply datetime_dtype_conforms; [|done].
    apply list_elem_of_lookup in Hc' as [i Hi].
    destruct (Forall2_lookup_r _ _ _ _ _ Em Hi) as (c & _ & Hc).
    by eapply to_timestamp_shape. }
  destruct d; try (by apply Hparse). injection Hto as <-. by split.
Qed.

Lemma conforms_converted d cs c e :
  conforms d c = true → c ∈ cs → notna c = true →
  convert_dtype d cs = e →
  e = d_string ∨ e = d_Float64 ∨ e = d_datetime_utc →
  conforms e c = true.
Proof.
  intros Hc Hin Hna <- He. destruct d; simpl in *.
  - destruct (existsb is_str cs && forallb is_str_or_na cs) eqn:E.
    + apply andb_prop in E as [_ E]. rewrite forallb_forall in E.
      apply list_elem_of_In, E in Hin. by destruct c as [[]|].
    + by destruct He as [|[|]].
  - by destruct He as [|[|]].
  - destruct (forallb integral cs); [by destruct He as [|[|]]|]. by destruct c as [[]|].
  - by destruct He as [|[|]].
  - done.
  - by destruct He as [|[|]].
  - done.
  - by destruct He as [|[|]].
  - done.
Qed.

Lemma cols_forallb_true {A} (p : A → bool) (c : cols A) :
  cols_forallb p c = true ↔
  p (study_id c) = true ∧ p (participant_id c) = true
  ∧ p (measurement_type c) = true ∧ p (value c) = true ∧ p (unit c) = true
  ∧ p (timestamp c) = true ∧ p (site_id c) = true ∧ p (quality_score c) = true.
Proof. unfold cols_forallb. rewrite !andb_true_iff. tauto. Qed.

(** On frames as [pd.read_csv] builds them, what [transform_data] returns
    is a cleaned record set. *)
Lemma transform_data_cleaned data out :
  well_typed data = true → transform_data data = Ok out → cleaned out = true.
Proof.
  intros Hwt Hout.
  pose proof (λ r, transform_data_complete _ _ r Hout) as Hna.
  destruct (transform_data_inv _ _ Hout) as (kept & Hk & Hconv & ->).
  unfold cleaned. simpl in Hna |- *.
  apply andb_true_intro. split; [|by apply forallb_elem_of].
  unfold well_typed. simpl. apply forallb_elem_of. intros r Hr.
  assert (Hrk : r ∈ rows kept).
  { apply drop_dups_elem in Hr as [Hr _]. by apply elem_of_sorted in Hr. }
  specialize (Hna r Hr). clear Hr Hout.
  (* the filtered frame holds values of its dtypes *)
  assert (Hkept : cols_forallb id (cols_map2 conforms (dtypes kept) r) = true).
  { unfold filtered in Hk.
    destruct (to_datetime _) as [ts|] eqn:Ets; [|done]. cbn in Hk. injection Hk as <-.
    unfold well_typed in Hwt. rewrite forallb_elem_of in Hwt.
    unfold getitem, dropna in Ets. simpl in Ets.
    apply to_datetime_conforms in Ets as [Hlen Hts].
    2:{ intros c (r0 & -> & [Hr0 _]%elem_of_List_filter)%list_elem_of_fmap.
        apply Hwt in Hr0. by apply cols_forallb_true in Hr0 as (_ & _ & _ & _ & _ & ? & _). }
    simpl in Hrk. apply elem_of_List_filter in Hrk as [Hrk _].
    apply assign_cells_elem_length in Hrk as (r0 & [Hr0 _]%elem_of_List_filter & E & Hin).
    2:{ by rewrite Hlen, length_map. }
    apply Hwt, cols_forallb_true in Hr0 as (? & ? & ? & ? & ? & _ & ? & ?).
    rewrite E. apply cols_forallb_true. simpl. repeat split; try done. by apply Hts. }
  apply cols_forallb_true in Hkept as (K1 & K2 & K3 & K4 & K5 & K6 & K7 & K8).
  apply cols_forallb_true in Hna as (N1 & N2 & N3 & N4 & N5 & N6 & N7 & N8).
  unfold convert_dtypes in Hconv. simpl in Hconv.
  injection Hconv as C1 C2 C3 C4 C5 C6 C7 C8.
  apply cols_forallb_true. simpl. unfold id in *.
  pose proof (λ f, list_elem_of_fmap_2 (A:=row) (B:=cell) f (rows kept) r Hrk) as Hin.
  repeat split.
  - exact (conforms_converted _ _ _ _ K1 (Hin study_id) N1 C1 (or_introl eq_refl)).
  - exact (conforms_converted _ _ _ _ K2 (Hin participant_id) N2 C2 (or_introl eq_refl)).
  - exact (conforms_converted _ _ _ _ K3 (Hin measurement_type) N3 C3 (or_introl eq_refl)).
  - exact (conforms_converted _ _ _ _ K4 (Hin value) N4 C4 (or_intror (or_introl eq_refl))).
  - exact (conforms_converted _ _ _ _ K5 (Hin unit) N5 C5 (or_introl eq_refl)).
  - exact (conforms_converted _ _ _ _ K6 (Hin timestamp) N6 C6 (or_intror (or_intror eq_refl))).
  - exact (conforms_converted _ _ _ _ K7 (Hin site_id) N7 C7 (or_introl eq_refl)).
  - exact (conforms_converted _ _ _ _ K8 (Hin quality_score) N8 C8 (or_intror (or_introl eq_refl))).
Qed.

(** So the validation of what [transform_data] returns does not raise. *)
Lemma validate_data_returns now data :
  cleaned data = true → ∃ b, validate_data now data = (Ok b, data).
Proof.
  intros Hc. rewrite validate_data_verdict. unfold verdict.
  rewrite (checks_cleaned _ _ Hc).
  destruct (forallb (λ r, Qle_bool 0 (value_of r)) _); cbn; [|by eauto].
  destruct (forallb (λ r, Qle_bool 0 (score r) && Qle_bool (score r) 1) _); cbn;
    [|by eauto].
  destruct (forallb (λ r, (instant r <=? now)%Z) _); cbn; [|by eauto].
  destruct (forallb unit_check _); cbn; eauto.
Qed.

Lemma transformed_data_validates now data out :
  well_typed data = true → transform_data data = Ok out →
  ∃ b, validate_data now out = (Ok b, out).
Proof. intros Hwt Hout. by eapply validate_data_returns, transform_data_cleaned. Qed.

End Transform_cleans.

(* ===================================================================== *)
(** * The orchestrator and the registry *)
(* ===================================================================== *)

Section Orchestrator_facts.
Context `{Pandas}.
Variable read_csv : string → result DataFrame.
Variable now : Z.

Lemma upd_init w job_id j : jobs w !! job_id = Some j → w = upd w job_id j [].
Proof.
  intros Hj. destruct w as [js ts d l]. unfold upd. simpl in *.
  by rewrite insert_id, app_nil_r.
Qed.

Lemma setitem_job_upd w job_id j evs f ev :
  setitem_job job_id f ev (upd w job_id j evs)
  = (Ok tt, upd w job_id (f j) (evs ++ [ev])).
Proof.
  unfold setitem_job, upd, with_log, with_jobs. simpl.
  rewrite lookup_insert_eq. simpl. by rewrite insert_insert_eq, <- app_assoc.
Qed.

Lemma set_status_upd w job_id a b c s p m evs v :
  set_status job_id v (upd w job_id (mkJob a b c s p m) evs)
  = (Ok tt, upd w job_id (mkJob a b c v p m) (evs ++ [SetStatus job_id v])).
Proof. apply setitem_job_upd. Qed.

Lemma set_progress_upd w job_id a b c s p m evs v :
  set_progress job_id v (upd w job_id (mkJob a b c s p m) evs)
  = (Ok tt, upd w job_id (mkJob a b c s v m) (evs ++ [SetProgress job_id v])).
Proof. apply setitem_job_upd. Qed.

Lemma set_message_upd w job_id a b c s p m evs v :
  set_message job_id v (upd w job_id (mkJob a b c s p m) evs)
  = (Ok tt, upd w job_id (mkJob a b c s p v) (evs ++ [SetMessage job_id v])).
Proof. apply setitem_job_upd. Qed.

Lemma call_upd {A} s (m : M world A) w job_id j evs :
  call s m (upd w job_id j evs) = m (upd w job_id j (evs ++ [Called s])).
Proof.
  unfold call, modify, upd, with_log, mbind, M_bind. simpl. by rewrite <- app_assoc.
Qed.

Lemma bind_Ok {S A B} (m : M S A) (k : A → M S B) s a s' :
  m s = (Ok a, s') → (m ≫= k) s = k a s'.
Proof. unfold mbind, M_bind. by intros ->. Qed.

Lemma bind_Raise {S A B} (m : M S A) (k : A → M S B) s e s' :
  m s = (Raise e, s') → (m ≫= k) s = (Raise e, s').
Proof. unfold mbind, M_bind. by intros ->. Qed.

Lemma handler_upd w job_id a b c s p m evs e :
  (set_status job_id "failed";;
   set_message job_id ("ETL process failed: " ++ str_exn e);;
   set_progress job_id 100) (upd w job_id (mkJob a b c s p m) evs)
  = (Ok tt, upd w job_id (mkJob a b c "failed" 100 ("ETL process failed: " ++ str_exn e))
                (evs ++ on_failure job_id e)).
Proof.
  erewrite bind_Ok by apply set_status_upd.
  erewrite bind_Ok by apply set_message_upd.
  rewrite set_progress_upd. unfold on_failure. by rewrite <- !app_assoc.
Qed.

Lemma call_lift_upd {A} s (r : result A) w job_id j evs :
  call s (lift r) (upd w job_id j evs) = (r, upd w job_id j (evs ++ [Called s])).
Proof. by rewrite call_upd. Qed.

Lemma call_on_frame_upd {A} s (m : M DataFrame A) data w job_id j evs :
  call s (on_frame m data) (upd w job_id j evs)
  = (match m data with
     | (Ok a, data') => Ok (a, data')
     | (Raise e, _) => Raise e
     end, upd w job_id j (evs ++ [Called s])).
Proof. rewrite call_upd. unfold on_frame. by destruct (m data) as [[] ?]. Qed.

Lemma call_load_upd data w job_id j evs :
  call Load (on_db (load_data data)) (upd w job_id j evs)
  = (Ok tt, upd w job_id j (evs ++ [Called Load])).
Proof. by rewrite call_upd. Qed.

Ltac set_step :=
  first [ erewrite bind_Ok by apply set_status_upd
        | erewrite bind_Ok by apply set_progress_upd
        | erewrite bind_Ok by apply set_message_upd ].

(** A run from a world in which the job is registered: it returns, and
    leaves the job and the log as its outcome says. *)
Lemma etl_pipeline_upd filename job_id w j evs :
  etl_pipeline read_csv now filename job_id (upd w job_id j evs)
  = (Ok tt, upd w job_id (final_job j (outcome_of read_csv now filename))
                (evs ++ events_of job_id (outcome_of read_csv now filename))).
Proof.
  destruct j as [a b c s p m].
  unfold etl_pipeline, try_except, outcome_of.
  set_step.
  destruct (extract_data read_csv filename) as [data|e].
  2:{ erewrite bind_Raise by apply call_lift_upd. unfold any_Exception.
      rewrite handler_upd. unfold events_of, through_extract. simpl.
      by rewrite <- !app_assoc. }
  erewrite bind_Ok by apply call_lift_upd. set_step. set_step.
  destruct (transform_data data) as [cleaned|e].
  2:{ erewrite bind_Raise by apply call_lift_upd. unfold any_Exception.
      rewrite handler_upd.
      unfold events_of, through_transform, through_extract. simpl.
      by rewrite <- !app_assoc. }
  erewrite bind_Ok by apply call_lift_upd. set_step. set_step.
  destruct (validate_data now cleaned) as [[[]|e] cleaned'] eqn:Hv.
  - erewrite bind_Ok by (rewrite call_on_frame_upd, Hv; reflexivity).
    cbn [negb]. set_step. set_step.
    erewrite bind_Ok by apply call_load_upd. set_step. set_step.
    rewrite set_message_upd.
    unfold events_of, through_validate, through_transform, through_extract. simpl.
    by rewrite <- !app_assoc.
  - erewrite bind_Ok by (rewrite call_on_frame_upd, Hv; reflexivity).
    cbn [negb]. set_step. set_step.
    rewrite set_progress_upd.
    unfold events_of, through_validate, through_transform, through_extract. simpl.
    by rewrite <- !app_assoc.
  - erewrite bind_Raise by (rewrite call_on_frame_upd, Hv; reflexivity).
    unfold any_Exception. rewrite handler_upd.
    unfold events_of, through_validate, through_transform, through_extract. simpl.
    by rewrite <- !app_assoc.
Qed.

Lemma etl_pipeline_run filename job_id w j :
  jobs w !! job_id = Some j →
  etl_pipeline read_csv now filename job_id w
  = (Ok tt, upd w job_id (final_job j (outcome_of read_csv now filename))
                (events_of job_id (outcome_of read_csv now filename))).
Proof.
  intros Hj. rewrite (upd_init w job_id j Hj) at 1. by rewrite etl_pipeline_upd.
Qed.

Lemma stages_called_app l1 l2 :
  stages_called (l1 ++ l2) = (stages_called l1 ++ stages_called l2)%list.
Proof. apply omap_app. Qed.

Lemma job_is_upd w job_id j evs :
  job_is (upd w job_id j evs) job_id (status j) (progress j) (message j).
Proof. exists j. split; [apply lookup_insert_eq|done]. Qed.

(** C3: in a run for a registered job, [etl_pipeline] returns normally
    whatever the stages do. When a stage raises [e], the job ends as
    failed, at progress 100, with the message "ETL process failed: "
    followed by [str(e)], and no later stage has been called. The load
    stage never raises. *)
Theorem etl_pipeline_catches filename job_id w :
  is_Some (jobs w !! job_id) →
  ∃ w', etl_pipeline read_csv now filename job_id w = (Ok tt, w')
    ∧ (∀ e, extract_data read_csv filename = Raise e →
         job_is w' job_id "failed" 100 ("ETL process failed: " ++ str_exn e)
         ∧ stages_called (log w') = (stages_called (log w) ++ [Extract])%list)
    ∧ (∀ data e, extract_data read_csv filename = Ok data →
         transform_data data = Raise e →
         job_is w' job_id "failed" 100 ("ETL process failed: " ++ str_exn e)
         ∧ stages_called (log w')
           = (stages_called (log w) ++ [Extract; Transform])%list)
    ∧ (∀ data cleaned e, extract_data read_csv filename = Ok data →
         transform_data data = Ok cleaned →
         (validate_data now cleaned).1 = Raise e →
         job_is w' job_id "failed" 100 ("ETL process failed: " ++ str_exn e)
         ∧ stages_called (log w')
           = (stages_called (log w) ++ [Extract; Transform; Validate])%list)
    ∧ (∀ data d, (load_data data d).1 = Ok tt).
Proof.
  intros [j Hj]. eexists. split; [by apply etl_pipeline_run|].
  unfold outcome_of. split; [|split; [|split; [|done]]].
  - intros e He. rewrite He. split.
    + apply (job_is_upd w job_id (final_job j (Failed_in Extract e))).
    + simpl. by rewrite stages_called_app.
  - intros data e He Ht. rewrite He, Ht. split.
    + apply (job_is_upd w job_id (final_job j (Failed_in Transform e))).
    + simpl. by rewrite stages_called_app.
  - intros data cleaned e He Ht Hv. rewrite He, Ht.
    destruct (validate_data now cleaned) as [r ?]. simpl in Hv. subst r. split.
    + apply (job_is_upd w job_id (final_job j (Failed_in Validate e))).
    + simpl. by rewrite stages_called_app.
Qed.

(** C5: in a run that reaches the validation, a true verdict is followed
    by progress 75 and then by the call of the load stage; a false verdict
    sets the job to failed with the message "Data validation failed" and
    progress 100, and the load stage is not called. *)
Theorem etl_pipeline_validate_step filename job_id w data cleaned b cleaned' :
  is_Some (jobs w !! job_id) →
  extract_data read_csv filename = Ok data →
  transform_data data = Ok cleaned →
  validate_data now cleaned = (Ok b, cleaned') →
  ∃ w', etl_pipeline read_csv now filename job_id w = (Ok tt, w')
    ∧ if b then
        log w' = (log w ++ through_validate job_id
                  ++ [SetProgress job_id 75;
                      SetMessage job_id "Loading data into database";
                      Called Load;
                      SetProgress job_id 100;
                      SetStatus job_id "completed";
                      SetMessage job_id "ETL process completed successfully"])%list
        ∧ stages_called (log w')
          = (stages_called (log w) ++ [Extract; Transform; Validate; Load])%list
      else
        log w' = (log w ++ through_validate job_id
                  ++ [SetStatus job_id "failed";
                      SetMessage job_id "Data validation failed";
                      SetProgress job_id 100])%list
        ∧ job_is w' job_id "failed" 100 "Data validation failed"
        ∧ stages_called (log w')
          = (stages_called (log w) ++ [Extract; Transform; Validate])%list.
Proof.
  intros [j Hj] He Ht Hv. eexists. split; [by apply etl_pipeline_run|].
  unfold outcome_of. rewrite He, Ht, Hv. destruct b; simpl.
  - split; [done|]. by rewrite stages_called_app.
  - split; [done|]. split; [|by rewrite stages_called_app].
    apply (job_is_upd w job_id (final_job j Rejected)).
Qed.

(** C6: when extraction and transformation return and the validation
    returns true, the job ends as completed, at progress 100, with the
    message "ETL process completed successfully". *)
Theorem etl_pipeline_completes filename job_id w data cleaned cleaned' :
  is_Some (jobs w !! job_id) →
  extract_data read_csv filename = Ok data →
  transform_data data = Ok cleaned →
  validate_data now cleaned = (Ok true, cleaned') →
  (load_data cleaned' (db w)).1 = Ok tt
  ∧ ∃ w', etl_pipeline read_csv now filename job_id w = (Ok tt, w')
      ∧ job_is w' job_id "completed" 100 "ETL process completed successfully".
Proof.
  intros [j Hj] He Ht Hv. split; [done|].
  eexists. split; [by apply etl_pipeline_run|].
  unfold outcome_of. rewrite He, Ht, Hv.
  apply (job_is_upd w job_id (final_job j Completed)).
Qed.

(** C9: [load_data] returns without raising and leaves the database as it
    is; so does a whole run, and a run in which the load stage is called
    ends with the job completed. *)
Theorem load_data_noop :
  (∀ data d, load_data data d = (Ok tt, d))
  ∧ ∀ filename job_id w,
      is_Some (jobs w !! job_id) →
      ∃ w' evs, etl_pipeline read_csv now filename job_id w = (Ok tt, w')
        ∧ log w' = (log w ++ evs)%list
        ∧ db w' = db w
        ∧ (Called Load ∈ evs →
           job_is w' job_id "completed" 100 "ETL process completed successfully").
Proof.
  split; [done|]. intros filename job_id w [j Hj].
  eexists _, _. split; [by apply etl_pipeline_run|].
  split; [done|]. split; [done|].
  destruct (outcome_of read_csv now filename) as [[] e| |].
  6:{ intros _. apply (job_is_upd w job_id (final_job j Completed)). }
  all: intros Hin; exfalso; simpl in Hin;
    repeat (apply elem_of_cons in Hin as [Hin|Hin]; [discriminate Hin|]);
    by apply elem_of_nil in Hin.
Qed.

End Orchestrator_facts.

Lemma submit_job_known job_request w :
  is_Some (jobs w !! req_jobId job_request) →
  submit_job job_request w = (Raise (HTTPException 400 "Job ID already exists"), w).
Proof.
  intros Hj. unfold submit_job, mbind, M_bind, gets. by rewrite bool_decide_eq_true_2.
Qed.

Lemma submit_job_new job_request w :
  jobs w !! req_jobId job_request = None →
  submit_job job_request w
  = (Ok (mkResponse (req_jobId job_request) "running" "Job submitted successfully"),
     mkWorld (<[req_jobId job_request :=
                 mkJob (req_jobId job_request) (req_filename job_request)
                       (req_studyId job_request) "running" 0 "Job started"]> (jobs w))
             (mkTask (req_filename job_request) (req_jobId job_request) :: tasks w)
             (db w) (log w)).
Proof.
  intros Hj. unfold submit_job, mbind, M_bind, gets.
  by rewrite bool_decide_eq_false_2 by (rewrite Hj; by intros [? ?]).
Qed.

(** C7: submitting a job under an id already in the registry raises the
    duplicate-id error (HTTP 400, "Job ID already exists") and changes
    nothing; under a new id it registers the job as running at progress 0,
    leaves the other jobs alone and creates exactly one task, the one that
    runs the pipeline for that id. *)
Theorem submit_job_registers (job_request : ETLJobRequest) (w : world) :
  let job_id := req_jobId job_request in
  (is_Some (jobs w !! job_id) →
     submit_job job_request w
     = (Raise (HTTPException 400 "Job ID already exists"), w))
  ∧ (jobs w !! job_id = None →
     ∃ w', submit_job job_request w
           = (Ok (mkResponse job_id "running" "Job submitted successfully"), w')
       ∧ jobs w' !! job_id
         = Some (mkJob job_id (req_filename job_request) (req_studyId job_request)
                       "running" 0 "Job started")
       ∧ (∀ other, other ≠ job_id → jobs w' !! other = jobs w !! other)
       ∧ tasks w' = mkTask (req_filename job_request) job_id :: tasks w
       ∧ db w' = db w ∧ log w' = log w).
Proof.
  simpl. split; [apply submit_job_known|].
  intros Hj. eexists. split; [by apply submit_job_new|]. simpl.
  split; [apply lookup_insert_eq|].
  split; [|done]. intros other Hne. by apply lookup_insert_ne.
Qed.

(** A job that was submitted runs to an end: the task created for it
    returns, and leaves the job completed or failed at progress 100. *)
Lemma submitted_job_terminates `{Pandas} read_csv now job_request w resp w1 :
  submit_job job_request w = (Ok resp, w1) →
  ∃ t w2, tasks w1 = t :: tasks w
    ∧ run_task read_csv now t w1 = (Ok tt, w2)
    ∧ ∃ j, jobs w2 !! req_jobId job_request = Some j
        ∧ progress j = 100%Z
        ∧ (status j = "completed" ∨ status j = "failed").
Proof.
  intros Hsub.
  destruct (jobs w !! req_jobId job_request) as [j0|] eqn:Ej.
  { rewrite submit_job_known in Hsub by (rewrite Ej; eauto). discriminate. }
  rewrite (submit_job_new _ _ Ej) in Hsub. injection Hsub as _ <-.
  eexists _, _. split; [reflexivity|]. unfold run_task. simpl.
  erewrite etl_pipeline_run by apply lookup_insert_eq. split; [reflexivity|].
  eexists. split; [apply lookup_insert_eq|].
  destruct (outcome_of read_csv now (req_filename job_request)); simpl; auto.
Qed.

(* ===================================================================== *)
(** * The scenarios of the specification, and the claims at the samples *)
(* ===================================================================== *)

Import Sample.

Example transform_scenario_A :
  length (rows scenario_A) = 3%nat
  ∧ ∃ out, transform_data scenario_A = Ok out ∧ length (rows out) = 2%nat.
Proof. split; [reflexivity|]. eexists. split; reflexivity. Qed.

Example transform_scenario_B : transform_data scenario_B = Ok scenario_B_out.
Proof. reflexivity. Qed.

Example validate_scenario_C : validate_data t_now scenario_C = (Ok false, scenario_C).
Proof. reflexivity. Qed.

Example validate_scenario_D :
  validate_data t_now scenario_B_out = (Ok true, scenario_B_out).
Proof. reflexivity. Qed.

Example pipeline_scenario_D :
  ∃ w', etl_pipeline disk t_now "sample.csv" "job-1" registry = (Ok tt, w')
    ∧ jobs w' !! "job-1"
      = Some (mkJob "job-1" "sample.csv" None "completed" 100
                    "ETL process completed successfully").
Proof. eexists. split; [vm_compute; reflexivity|]. vm_compute. reflexivity. Qed.

Example pipeline_scenario_E :
  ∃ w', etl_pipeline disk t_now "missing.csv" "job-1" registry = (Ok tt, w')
    ∧ jobs w' !! "job-1"
      = Some (mkJob "job-1" "sample.csv" None "failed" 100
                    "ETL process failed: [Errno 2] No such file or directory: '/app/data/missing.csv'").
Proof. eexists. split; [vm_compute; reflexivity|]. vm_compute. reflexivity. Qed.

(** Mixed units: the validation refuses the batch and nothing is loaded. *)
Example pipeline_mixed_units :
  ∃ w', etl_pipeline disk t_now "mixed_units.csv" "job-1" registry = (Ok tt, w')
    ∧ jobs w' !! "job-1"
      = Some (mkJob "job-1" "sample.csv" None "failed" 100 "Data validation failed")
    ∧ stages_called (log w') = [Extract; Transform; Validate].
Proof.
  eexists. split; [vm_compute; reflexivity|]. split; vm_compute; reflexivity.
Qed.

(** A file with naive timestamps fails the run; the assertion that raised
    carries no message. *)
Example pipeline_naive_file :
  ∃ w', etl_pipeline disk t_now "naive.csv" "job-1" registry = (Ok tt, w')
    ∧ jobs w' !! "job-1"
      = Some (mkJob "job-1" "sample.csv" None "failed" 100 "ETL process failed: ").
Proof. eexists. split; [vm_compute; reflexivity|]. vm_compute. reflexivity. Qed.

(** ** The claims at the samples *)

Lemma validate_data_rules_witness :
  cleaned scenario_B_out = true
  ∧ ∃ b, validate_data t_now scenario_B_out = (Ok b, scenario_B_out)
         ∧ (b = true ↔ rules t_now scenario_B_out).
Proof. split; [reflexivity|]. apply (validate_data_rules t_now scenario_B_out). reflexivity. Defined.

(** C2 as stated fails: of the two input rows for ("P1", "bp") the one
    with score 0.9 has no unit and goes with the first filter; the row
    retained has score 0.7, not the greatest score of the input group. *)
Lemma transform_data_max_counterexample :
  transform_data (Frame raw_dtypes [best_incomplete; second_best])
  = Ok (Frame expected_dtypes [second_best_clean])
  ∧ key best_incomplete = key second_best_clean
  ∧ (score second_best_clean < score best_incomplete)%Q.
Proof. repeat split. Qed.

Lemma transform_data_invariant_witness :
  transform_data scenario_B = Ok scenario_B_out
  ∧ NoDup (map key (rows scenario_B_out)).
Proof.
  split; [reflexivity|].
  apply (transform_data_invariant scenario_B scenario_B_out). reflexivity.
Defined.

Lemma transform_data_idempotent_witness :
  transform_data scenario_B = Ok scenario_B_out
  ∧ ∃ z, transform_data scenario_B_out = Ok z
         ∧ dtypes z = dtypes scenario_B_out
         ∧ Permutation (rows z) (rows scenario_B_out).
Proof.
  split; [reflexivity|].
  apply (transform_data_idempotent scenario_B scenario_B_out). reflexivity.
Defined.

Lemma transform_data_dtype_assertion_witness :
  transform_data naive_file = Raise AssertionError.
Proof.
  apply (proj2 (transform_data_dtype_assertion naive_file)).
  - reflexivity.
  - intros r Hr. apply list_elem_of_singleton in Hr as ->. reflexivity.
  - exists naive_row, "2024-01-15 09:30:00", None, t_sample.
    repeat split; [apply list_elem_of_singleton; reflexivity | discriminate].
Defined.

(** C8 as stated fails: the same record set is refused the day before its
    timestamp and accepted the day after. *)
Lemma validate_data_clock_counterexample :
  cleaned dated_2026 = true
  ∧ validate_data day_before dated_2026 = (Ok false, dated_2026)
  ∧ validate_data day_after dated_2026 = (Ok true, dated_2026).
Proof. repeat split. Qed.

Lemma validate_data_pure_witness :
  (validate_data t_now scenario_B_out).1 = (validate_data day_after scenario_B_out).1
  ∧ (validate_data t_now scenario_B_out).2 = scenario_B_out
  ∧ (validate_data day_after scenario_B_out).2 = scenario_B_out.
Proof.
  apply (validate_data_pure scenario_B_out t_now day_after).
  intros r tz ns Hr. apply list_elem_of_singleton in Hr as ->.
  intros [= <- <-]. vm_compute. split; discriminate.
Defined.

Lemma registry_has_job_1 : is_Some (jobs registry !! "job-1").
Proof. exists job_1. reflexivity. Defined.

Lemma etl_pipeline_catches_witness :
  ∃ w', etl_pipeline disk t_now "missing.csv" "job-1" registry = (Ok tt, w')
    ∧ job_is w' "job-1" "failed" 100
        ("ETL process failed: [Errno 2] No such file or directory: '/app/data/missing.csv'")
    ∧ stages_called (log w') = [Extract].
Proof.
  destruct (etl_pipeline_catches disk t_now "missing.csv" "job-1" registry registry_has_job_1)
    as (w' & Hrun & Hextract & _).
  exists w'. split; [exact Hrun|].
  exact (Hextract (FileNotFoundError
    "[Errno 2] No such file or directory: '/app/data/missing.csv'") eq_refl).
Defined.

Lemma etl_pipeline_validate_step_witness :
  ∃ w', etl_pipeline disk t_now "sample.csv" "job-1" registry = (Ok tt, w')
    ∧ stages_called (log w') = [Extract; Transform; Validate; Load].
Proof.
  destruct (etl_pipeline_validate_step disk t_now "sample.csv" "job-1" registry
              scenario_B scenario_B_out true scenario_B_out registry_has_job_1)
    as (w' & Hrun & _ & Hstages); [reflexivity..|].
  exists w'. split; [exact Hrun|exact Hstages].
Defined.

Lemma etl_pipeline_completes_witness :
  ∃ w', etl_pipeline disk t_now "sample.csv" "job-1" registry = (Ok tt, w')
    ∧ job_is w' "job-1" "completed" 100 "ETL process completed successfully".
Proof.
  apply (etl_pipeline_completes disk t_now "sample.csv" "job-1" registry
           scenario_B scenario_B_out scenario_B_out registry_has_job_1);
    reflexivity.
Defined.

Lemma load_data_noop_witness :
  ∃ w' evs, etl_pipeline disk t_now "sample.csv" "job-1" registry = (Ok tt, w')
    ∧ log w' = (log registry ++ evs)%list
    ∧ db w' = db registry
    ∧ (Called Load ∈ evs →
       job_is w' "job-1" "completed" 100 "ETL process completed successfully").
Proof.
  apply (proj2 (load_data_noop disk t_now) "sample.csv" "job-1" registry registry_has_job_1).
Defined.

Lemma submit_job_registers_witness :
  submit_job (mkRequest "job-1" "other.csv" None) registry
  = (Raise (HTTPException 400 "Job ID already exists"), registry)
  ∧ ∃ w', submit_job (mkRequest "job-1" "sample.csv" None) empty_world
          = (Ok (mkResponse "job-1" "running" "Job submitted successfully"), w')
      ∧ jobs w' !! "job-1" = Some job_1
      ∧ tasks w' = [mkTask "sample.csv" "job-1"].
Proof.
  split.
  - apply (proj1 (submit_job_registers (mkRequest "job-1" "other.csv" None) registry)).
    exact registry_has_job_1.
  - destruct (proj2 (submit_job_registers (mkRequest "job-1" "sample.csv" None) empty_world))
      as (w' & Hsub & Hjob & _ & Htasks & _); [reflexivity|].
    exists w'. split; [exact Hsub|]. split; [exact Hjob|exact Htasks].
Defined.


(* ===================================================================== *)
(** * Further properties: runs, the registry and its queries *)
(* ===================================================================== *)

Section Run_facts.
Context `{Pandas}.
Variable read_csv : string → result DataFrame.
Variable now : Z.

(** A run either finds its job and ends as its outcome says, or does not
    find it. *)
Lemma etl_pipeline_cases filename job_id w :
  etl_pipeline read_csv now filename job_id w
  = match jobs w !! job_id with
    | Some j =>
        (Ok tt, upd w job_id (final_job j (outcome_of read_csv now filename))
                    (events_of job_id (outcome_of read_csv now filename)))
    | None => (Raise (KeyError job_id), w)
    end.
Proof.
  destruct (jobs w !! job_id) as [j|] eqn:Hj; [by apply etl_pipeline_run|].
  unfold etl_pipeline, try_except, set_message, set_status.
  unfold mbind at 1, M_bind at 1, setitem_job at 1. rewrite Hj.
  unfold any_Exception. unfold mbind at 1, M_bind at 1, setitem_job at 1.
  by rewrite Hj.
Qed.

(** X1: a run for an id that is not in the registry is not caught by the
    orchestrator: the first write raises [KeyError], the handler's own
    write raises it again, and it leaves [etl_pipeline]; no stage has been
    called and nothing has changed. *)
Theorem etl_pipeline_unregistered filename job_id w :
  jobs w !! job_id = None →
  etl_pipeline read_csv now filename job_id w = (Raise (KeyError job_id), w)
  ∧ run_task read_csv now (mkTask filename job_id) w
    = (Raise (KeyError job_id), discard (mkTask filename job_id) w).
Proof.
  intros Hj.
  assert (E : etl_pipeline read_csv now filename job_id w = (Raise (KeyError job_id), w)).
  { unfold etl_pipeline, try_except, set_message, set_status.
    unfold mbind at 1, M_bind at 1, setitem_job at 1. rewrite Hj.
    unfold any_Exception. unfold mbind at 1, M_bind at 1, setitem_job at 1.
    by rewrite Hj. }
  split; [exact E|]. unfold run_task. simpl. by rewrite E.
Qed.

Lemma events_of_own job_id o :
  Forall (λ ev, ∀ id, written_job ev = Some id → id = job_id) (events_of job_id o).
Proof.
  destruct o as [[] e| |]; simpl;
    repeat (constructor; [intros id; simpl; congruence|]); constructor.
Qed.

(** X2: a run writes to the dictionary of its own job and to nothing else:
    the other jobs, the task set and the database are as before, no job is
    created, the job keeps its id, file and study id, and every write
    it logs is a write to its own job. *)
Theorem etl_pipeline_frame file job_id w r w' :
  etl_pipeline read_csv now file job_id w = (r, w') →
  (∀ other, other ≠ job_id → jobs w' !! other = jobs w !! other)
  ∧ tasks w' = tasks w
  ∧ db w' = db w
  ∧ (jobs w !! job_id = None → jobs w' !! job_id = None)
  ∧ (∀ j, jobs w !! job_id = Some j →
       ∃ j', jobs w' !! job_id = Some j' ∧ jobId j' = jobId j
             ∧ filename j' = filename j ∧ studyId j' = studyId j)
  ∧ ∃ evs, log w' = (log w ++ evs)%list
      ∧ Forall (λ ev, ∀ id, written_job ev = Some id → id = job_id) evs.
Proof.
  rewrite etl_pipeline_cases. destruct (jobs w !! job_id) as [j|] eqn:Hj.
  - intros [= <- <-]. simpl. split; [|split; [done|split; [done|split; [done|split]]]].
    + intros other Hne. by apply lookup_insert_ne.
    + intros j0 [= <-]. eexists. split; [apply lookup_insert_eq|].
      by destruct (outcome_of read_csv now file).
    + eexists. split; [reflexivity|]. apply events_of_own.
  - intros [= <- <-]. split; [done|]. split; [done|]. split; [done|].
    split; [done|]. split; [done|]. exists []. split; [by rewrite app_nil_r|constructor].
Qed.

(** X3: the stages a run calls are an initial part of extract, transform,
    validate, load, in that order and each at most once; extraction is
    always called. *)
Theorem etl_pipeline_stage_order file job_id w :
  is_Some (jobs w !! job_id) →
  ∃ w' evs, etl_pipeline read_csv now file job_id w = (Ok tt, w')
    ∧ log w' = (log w ++ evs)%list
    ∧ stages_called evs `prefix_of` [Extract; Transform; Validate; Load]
    ∧ Extract ∈ stages_called evs.
Proof.
  intros [j Hj]. rewrite etl_pipeline_cases, Hj.
  eexists _, _. split; [reflexivity|]. split; [reflexivity|].
  destruct (outcome_of read_csv now file) as [[] e| |]; simpl.
  - split; [by exists [Transform; Validate; Load]|by left].
  - split; [by exists [Validate; Load]|by left].
  - split; [by exists [Load]|by left].
  - split; [by exists [Load]|by left].
  - split; [by exists [Load]|by left].
  - split; [by exists []|by left].
Qed.

(** X4: the progress values a run writes go up strictly, are among 25, 50,
    75 and 100, and the last one is 100. *)
Theorem etl_pipeline_progress file job_id w :
  is_Some (jobs w !! job_id) →
  ∃ w' evs, etl_pipeline read_csv now file job_id w = (Ok tt, w')
    ∧ log w' = (log w ++ evs)%list
    ∧ StronglySorted Z.lt (progress_written evs)
    ∧ Forall (λ p, p ∈ [25; 50; 75; 100]%Z) (progress_written evs)
    ∧ last (progress_written evs) = Some 100%Z.
Proof.
  intros [j Hj]. rewrite etl_pipeline_cases, Hj.
  eexists _, _. split; [reflexivity|]. split; [reflexivity|].
  destruct (outcome_of read_csv now file) as [[] e| |]; simpl;
    (split; [repeat (constructor; [|repeat (constructor; [lia|]); constructor]);
             constructor
            |split; [repeat (constructor; [set_solver|]); constructor|reflexivity]]).
Qed.

(** X5: a run for a registered job leaves it at progress 100, completed or
    failed. It is completed exactly when extraction and transformation
    returned and the validation returned true, and its message is "Data
    validation failed" exactly when they returned and the validation
    returned false. *)
Theorem etl_pipeline_terminal file job_id w :
  is_Some (jobs w !! job_id) →
  ∃ w' j', etl_pipeline read_csv now file job_id w = (Ok tt, w')
    ∧ jobs w' !! job_id = Some j'
    ∧ progress j' = 100%Z
    ∧ (status j' = "completed" ∨ status j' = "failed")
    ∧ (status j' = "completed" ↔
       ∃ data cleaned cleaned', extract_data read_csv file = Ok data
         ∧ transform_data data = Ok cleaned
         ∧ validate_data now cleaned = (Ok true, cleaned'))
    ∧ (message j' = "Data validation failed" ↔
       ∃ data cleaned cleaned', extract_data read_csv file = Ok data
         ∧ transform_data data = Ok cleaned
         ∧ validate_data now cleaned = (Ok false, cleaned')).
Proof.
  intros [j Hj]. rewrite etl_pipeline_cases, Hj.
  eexists _, _. split; [reflexivity|]. split; [apply lookup_insert_eq|].
  unfold outcome_of.
  destruct (extract_data read_csv file) as [data|e] eqn:He; simpl.
  2:{ split; [done|]. split; [by right|]. split; split.
    - intros Hs. discriminate Hs.
    - by intros (? & ? & ? & ? & _).
    - intros Hm. cbn in Hm. discriminate Hm.
    - by intros (? & ? & ? & ? & _). }
  destruct (transform_data data) as [cleaned|e] eqn:Ht; simpl.
  2:{ split; [done|]. split; [by right|]. split; split.
    - intros Hs. discriminate Hs.
    - intros (? & ? & ? & [= <-] & Ht' & _). congruence.
    - intros Hm. cbn in Hm. discriminate Hm.
    - intros (? & ? & ? & [= <-] & Ht' & _). congruence. }
  destruct (validate_data now cleaned) as [[[]|e] cleaned'] eqn:Hv; simpl.
  - split; [done|]. split; [by left|]. split; split.
    + intros _. by exists data, cleaned, cleaned'.
    + done.
    + intros Hm. discriminate Hm.
    + intros (? & ? & ? & [= <-] & Ht' & Hv'). congruence.
  - split; [done|]. split; [by right|]. split; split.
    + intros Hs. discriminate Hs.
    + intros (? & ? & ? & [= <-] & Ht' & Hv'). congruence.
    + intros _. by exists data, cleaned, cleaned'.
    + done.
  - split; [done|]. split; [by right|]. split; split.
    + intros Hs. discriminate Hs.
    + intros (? & ? & ? & [= <-] & Ht' & Hv'). congruence.
    + intros Hm. cbn in Hm. discriminate Hm.
    + intros (? & ? & ? & [= <-] & Ht' & Hv'). congruence.
Qed.

(** X6: for a file that [pd.read_csv] typed column by column, once the
    transformation has returned the validation returns too, and the job
    ends completed, or failed with "Data validation failed": a run does not
    fail in the validation stage. *)
Theorem etl_pipeline_well_typed file job_id w data cleaned :
  is_Some (jobs w !! job_id) →
  extract_data read_csv file = Ok data →
  well_typed data = true →
  transform_data data = Ok cleaned →
  ∃ w' b, etl_pipeline read_csv now file job_id w = (Ok tt, w')
    ∧ validate_data now cleaned = (Ok b, cleaned)
    ∧ job_is w' job_id (if b then "completed" else "failed") 100
        (if b then "ETL process completed successfully" else "Data validation failed").
Proof.
  intros [j Hj] He Hwt Ht.
  destruct (transformed_data_validates now _ _ Hwt Ht) as [b Hv].
  rewrite etl_pipeline_cases, Hj. unfold outcome_of. rewrite He, Ht, Hv.
  eexists _, b. split; [reflexivity|]. split; [done|].
  eexists. split; [apply lookup_insert_eq|]. by destruct b.
Qed.

End Run_facts.

Section Registry_facts.
Context `{Pandas}.

Lemma get_job_status_known job_id w j :
  jobs w !! job_id = Some j →
  get_job_status job_id w
  = (Ok (mkStatus job_id (status j) (Some (progress j)) (Some (message j))), w).
Proof.
  intros Hj. unfold get_job_status, mbind, M_bind, gets, getitem_job.
  rewrite bool_decide_eq_true_2 by (rewrite Hj; eauto). simpl. by rewrite Hj.
Qed.

Lemma get_job_status_unknown job_id w :
  jobs w !! job_id = None →
  get_job_status job_id w = (Raise (HTTPException 404 "Job not found"), w).
Proof.
  intros Hj. unfold get_job_status, mbind, M_bind, gets.
  by rewrite bool_decide_eq_false_2 by (rewrite Hj; by intros [? ?]).
Qed.

Lemma get_job_details_known job_id w j :
  jobs w !! job_id = Some j → get_job_details job_id w = (Ok j, w).
Proof.
  intros Hj. unfold get_job_details, mbind, M_bind, gets, getitem_job.
  rewrite bool_decide_eq_true_2 by (rewrite Hj; eauto). simpl. by rewrite Hj.
Qed.

Lemma get_job_details_unknown job_id w :
  jobs w !! job_id = None →
  get_job_details job_id w = (Raise (HTTPException 404 "Job not found"), w).
Proof.
  intros Hj. unfold get_job_details, mbind, M_bind, gets.
  by rewrite bool_decide_eq_false_2 by (rewrite Hj; by intros [? ?]).
Qed.

(** X7: an id that is not registered answers 404 to both queries; once
    [submit_job] has accepted it, the status query answers running, progress
    0, "Job started", and the details query gives back the filename and the
    study id that were submitted. *)
Theorem submit_then_query job_request w :
  let job_id := req_jobId job_request in
  jobs w !! job_id = None →
  get_job_status job_id w = (Raise (HTTPException 404 "Job not found"), w)
  ∧ get_job_details job_id w = (Raise (HTTPException 404 "Job not found"), w)
  ∧ ∃ resp w1, submit_job job_request w = (Ok resp, w1)
      ∧ get_job_status job_id w1
        = (Ok (mkStatus job_id "running" (Some 0%Z) (Some "Job started")), w1)
      ∧ get_job_details job_id w1
        = (Ok (mkJob job_id (req_filename job_request) (req_studyId job_request)
                     "running" 0 "Job started"), w1).
Proof.
  simpl. intros Hj.
  split; [by apply get_job_status_unknown|].
  split; [by apply get_job_details_unknown|].
  eexists _, _. split; [by apply submit_job_new|].
  set (j0 := mkJob (req_jobId job_request) (req_filename job_request)
                   (req_studyId job_request) "running" 0 "Job started").
  split.
  - apply (get_job_status_known _ _ j0). apply lookup_insert_eq.
  - apply (get_job_details_known _ _ j0). apply lookup_insert_eq.
Qed.

Lemma discard_not_elem t w : t ∉ tasks (discard t w).
Proof.
  unfold discard. simpl. intros [_ Hf]%elem_of_List_filter.
  by rewrite bool_decide_eq_true_2 in Hf.
Qed.

(** X8: after [submit_job] has accepted a job and its task has run, the
    status query answers completed or failed at progress 100, and the task
    is no longer held in [tasks]. *)
Theorem submit_run_query read_csv now job_request w :
  let job_id := req_jobId job_request in
  jobs w !! job_id = None →
  ∃ resp w1 t w2 st,
    submit_job job_request w = (Ok resp, w1)
    ∧ tasks w1 = t :: tasks w
    ∧ run_task read_csv now t w1 = (Ok tt, w2)
    ∧ (t ∉ tasks w2)
    ∧ get_job_status job_id w2 = (Ok st, w2)
    ∧ st_progress st = Some 100%Z
    ∧ (st_status st = "completed" ∨ st_status st = "failed").
Proof.
  simpl. intros Hj.
  eexists _, _, _, _, _. split; [by apply submit_job_new|]. split; [reflexivity|].
  unfold run_task. simpl.
  erewrite etl_pipeline_run by apply lookup_insert_eq.
  split; [reflexivity|]. split; [apply discard_not_elem|].
  split; [apply get_job_status_known; simpl; apply lookup_insert_eq|]. simpl.
  destruct (outcome_of read_csv now (req_filename job_request)); simpl; auto.
Qed.

Lemma serve_keeps_jobs q w job_id :
  is_Some (jobs w !! job_id) → is_Some (jobs (serve q w) !! job_id).
Proof.
  intros Hj. destruct q as [job_request|read_csv now t|id|id|]; simpl.
  - destruct (jobs w !! req_jobId job_request) as [j|] eqn:E.
    + by rewrite submit_job_known by (rewrite E; eauto).
    + rewrite (submit_job_new _ _ E). simpl.
      destruct (decide (req_jobId job_request = job_id)) as [->|Hne].
      * rewrite lookup_insert_eq. eauto.
      * by rewrite lookup_insert_ne.
  - unfold run_task. rewrite etl_pipeline_cases.
    destruct (jobs w !! t_job_id t) as [j|] eqn:E; simpl; [|done].
    destruct (decide (t_job_id t = job_id)) as [->|Hne].
    + rewrite lookup_insert_eq. eauto.
    + by rewrite lookup_insert_ne.
  - destruct (jobs w !! id) as [j|] eqn:E.
    + by rewrite (get_job_status_known _ _ _ E).
    + by rewrite (get_job_status_unknown _ _ E).
  - destruct (jobs w !! id) as [j|] eqn:E.
    + by rewrite (get_job_details_known _ _ _ E).
    + by rewrite (get_job_details_unknown _ _ E).
  - done.
Qed.

(** X9: the service never removes a job. Whatever calls follow, a
    registered id stays registered: the status query keeps answering, and
    submitting the id again is refused and changes nothing. *)
Theorem registered_for_good qs w job_id :
  is_Some (jobs w !! job_id) →
  is_Some (jobs (serve_all qs w) !! job_id)
  ∧ (∃ st, get_job_status job_id (serve_all qs w) = (Ok st, serve_all qs w))
  ∧ (∀ file study,
       submit_job (mkRequest job_id file study) (serve_all qs w)
       = (Raise (HTTPException 400 "Job ID already exists"), serve_all qs w)).
Proof.
  intros Hj.
  assert (Hkept : is_Some (jobs (serve_all qs w) !! job_id)).
  { revert w Hj. induction qs as [|q qs IH]; intros w Hj; [done|].
    simpl. by apply IH, serve_keeps_jobs. }
  split; [done|]. split.
  - destruct Hkept as [j E]. eexists. by apply get_job_status_known.
  - intros file study. by apply submit_job_known.
Qed.

Lemma serve_registry_ok q w : registry_ok w → registry_ok (serve q w).
Proof.
  intros Hok. destruct q as [job_request|read_csv now t|id|id|]; simpl.
  - destruct (jobs w !! req_jobId job_request) as [j|] eqn:E.
    + by rewrite submit_job_known by (rewrite E; eauto).
    + rewrite (submit_job_new _ _ E). intros id j. simpl.
      destruct (decide (req_jobId job_request = id)) as [->|Hne].
      * rewrite lookup_insert_eq. intros [= <-]. split; [done|].
        split; set_solver.
      * rewrite lookup_insert_ne by done. apply Hok.
  - unfold run_task. rewrite etl_pipeline_cases.
    destruct (jobs w !! t_job_id t) as [j|] eqn:E; simpl; [|done].
    intros id j'. simpl.
    destruct (decide (t_job_id t = id)) as [<-|Hne].
    + rewrite lookup_insert_eq. intros [= <-].
      destruct (Hok _ _ E) as (Hid & _ & _).
      destruct (outcome_of read_csv now (t_filename t)); (split; [done|split; set_solver]).
    + rewrite lookup_insert_ne by done. apply Hok.
  - destruct (jobs w !! id) as [j|] eqn:E.
    + by rewrite (get_job_status_known _ _ _ E).
    + by rewrite (get_job_status_unknown _ _ E).
  - destruct (jobs w !! id) as [j|] eqn:E.
    + by rewrite (get_job_details_known _ _ _ E).
    + by rewrite (get_job_details_unknown _ _ E).
  - done.
Qed.

(** X10: at rest the registry holds, under each id, a dictionary whose
    [jobId] is that id, whose status is running, completed or failed and
    whose progress is 0, 25, 50, 75 or 100. This holds of the empty registry
    and after every call; so what the details query returns for an id
    carries that id. *)
Theorem registry_invariant qs w :
  registry_ok w →
  registry_ok (serve_all qs w)
  ∧ ∀ job_id j, get_job_details job_id (serve_all qs w) = (Ok j, serve_all qs w) →
                job_ok job_id j.
Proof.
  intros Hok.
  assert (Hall : registry_ok (serve_all qs w)).
  { revert w Hok. induction qs as [|q qs IH]; intros w Hok; [done|].
    simpl. by apply IH, serve_registry_ok. }
  split; [done|]. intros job_id j Hd.
  destruct (jobs (serve_all qs w) !! job_id) as [j0|] eqn:E.
  - rewrite (get_job_details_known _ _ _ E) in Hd. injection Hd as <-. by apply Hall.
  - by rewrite (get_job_details_unknown _ _ E) in Hd.
Qed.

Lemma submit_job_jobs job_request w :
  jobs (submit_job job_request w).2
  = match jobs w !! req_jobId job_request with
    | Some _ => jobs w
    | None => <[req_jobId job_request :=
                 mkJob (req_jobId job_request) (req_filename job_request)
                       (req_studyId job_request) "running" 0 "Job started"]> (jobs w)
    end
  ∧ tasks (submit_job job_request w).2
    = match jobs w !! req_jobId job_request with
      | Some _ => tasks w
      | None => mkTask (req_filename job_request) (req_jobId job_request) :: tasks w
      end.
Proof.
  destruct (jobs w !! req_jobId job_request) as [j|] eqn:E.
  - by rewrite submit_job_known by (rewrite E; eauto).
  - by rewrite (submit_job_new _ _ E).
Qed.

(** X11: two submissions under different ids do not interfere: in either
    order they leave the same registry and the same tasks. *)
Theorem submit_job_commute a b w :
  req_jobId a ≠ req_jobId b →
  jobs (serve_all [Submit a; Submit b] w) = jobs (serve_all [Submit b; Submit a] w)
  ∧ Permutation (tasks (serve_all [Submit a; Submit b] w))
                (tasks (serve_all [Submit b; Submit a] w)).
Proof.
  intros Hne. simpl.
  destruct (submit_job_jobs a w) as [Ja Ta].
  destruct (submit_job_jobs b w) as [Jb Tb].
  destruct (submit_job_jobs b (submit_job a w).2) as [Jab Tab].
  destruct (submit_job_jobs a (submit_job b w).2) as [Jba Tba].
  rewrite Jab, Jba, Tab, Tba, Ja, Jb, Ta, Tb.
  destruct (jobs w !! req_jobId a) as [ja|] eqn:Ea;
    destruct (jobs w !! req_jobId b) as [jb|] eqn:Eb;
    rewrite ?Ea, ?Eb, ?lookup_insert_ne, ?Ea, ?Eb by done; try done.
  split; [by apply insert_insert_ne|apply perm_swap].
Qed.

End Registry_facts.

(* ===================================================================== *)
(** * Further properties: transformation and validation *)
(* ===================================================================== *)

Section Transform_more.
Context `{Pandas}.

Lemma filtered_dtypes data kept :
  filtered data = Ok kept →
  ∃ d, dtypes kept = set_timestamp d (dtypes data).
Proof.
  unfold filtered. destruct (to_datetime _) as [ts|e]; [|done].
  cbn [mbind result_bind]. intros [= <-]. by eexists.
Qed.

(** X12: a row with a missing value has no part in the result: with or
    without it, [transform_data] returns the same frame or raises the same
    exception. *)
Theorem transform_data_ignores_incomplete d l1 r l2 :
  cols_forallb notna r = false →
  transform_data (Frame d (l1 ++ r :: l2)) = transform_data (Frame d (l1 ++ l2)).
Proof.
  intros Hr.
  assert (E : dropna (Frame d (l1 ++ r :: l2)) = dropna (Frame d (l1 ++ l2))).
  { unfold dropna. simpl. f_equal. rewrite !List.filter_app. simpl. by rewrite Hr. }
  unfold transform_data. by rewrite E.
Qed.

Lemma drop_dups_sorted (R : row → row → Prop) seen l :
  StronglySorted R l → StronglySorted R (drop_dups seen l).
Proof.
  intros Hs. revert seen. induction Hs as [|x l Hs IH Hx]; intros seen; simpl.
  - constructor.
  - case_bool_decide; [apply IH|]. constructor; [apply IH|].
    apply List.Forall_forall. intros y Hy.
    apply list_elem_of_In, drop_dups_elem in Hy as [Hy _].
    by apply (proj1 (List.Forall_forall _ _) Hx), list_elem_of_In.
Qed.

(** X13: the rows [transform_data] returns are in descending order of
    quality score. *)
Theorem transform_data_sorted data out :
  transform_data data = Ok out → StronglySorted (desc score) (rows out).
Proof.
  intros (kept & _ & _ & ->)%transform_data_inv. simpl.
  apply drop_dups_sorted, sort_values_sorted.
Qed.

(** X14: when [transform_data] returns on a frame typed as [pd.read_csv]
    types it, the frame returned has the asserted dtypes and every row holds
    text in the five text columns, floats in [value] and [quality_score] and
    a UTC instant in [timestamp]. *)
Theorem transform_data_typed data out :
  well_typed data = true → transform_data data = Ok out →
  dtypes out = expected_dtypes ∧ ∀ r, r ∈ rows out → typed_row r.
Proof.
  intros Hwt Hout. pose proof (transform_data_cleaned _ _ Hwt Hout) as Hc.
  unfold cleaned, well_typed in Hc.
  apply andb_prop in Hc as [[Hd Hty]%andb_prop Hna].
  apply bool_decide_eq_true in Hd. split; [done|]. intros r Hr.
  rewrite forallb_elem_of in Hty, Hna. specialize (Hty r Hr). specialize (Hna r Hr).
  rewrite Hd in Hty.
  apply cols_forallb_true in Hty as (T1 & T2 & T3 & T4 & T5 & T6 & T7 & T8).
  apply cols_forallb_true in Hna as (N1 & N2 & N3 & N4 & N5 & N6 & N7 & N8).
  destruct r as [a b c v u t s q]. simpl in *. unfold id in *.
  unfold typed_row, is_text, is_float, is_utc_instant. simpl.
  repeat split.
  - destruct a as [[]|]; try done. by eexists.
  - destruct b as [[]|]; try done. by eexists.
  - destruct c as [[]|]; try done. by eexists.
  - destruct v as [[]|]; try done. by eexists.
  - destruct u as [[]|]; try done. by eexists.
  - destruct t as [[| | | |tz ns]|]; try done.
    simpl in T6. apply bool_decide_eq_true in T6 as ->. by eexists.
  - destruct s as [[]|]; try done. by eexists.
  - destruct q as [[]|]; try done. by eexists.
Qed.

(** X15: [transform_data] does not return a frame without rows: when no row
    passes the filters, the [study_id] column of a file stays an object
    column and the first assertion fails. *)
Theorem transform_data_not_empty data out :
  study_id (dtypes data) ≠ d_string →
  transform_data data = Ok out → rows out ≠ [].
Proof.
  intros Hd (kept & Hk & Hconv & ->)%transform_data_inv. simpl. intros Hnil.
  destruct (filtered_dtypes _ _ Hk) as [dt Edt].
  assert (Hkept : rows kept = []).
  { destruct (rows kept) as [|r rs] eqn:E; [done|]. exfalso.
    destruct (drop_dups_covers [] (sort_values_desc score (r :: rs)) r) as (r1 & Hr1 & _).
    - apply elem_of_sorted. by left.
    - apply not_elem_of_nil.
    - rewrite Hnil in Hr1. by apply elem_of_nil in Hr1. }
  apply (f_equal study_id) in Hconv. unfold convert_dtypes in Hconv. simpl in Hconv.
  rewrite Hkept, Edt in Hconv. simpl in Hconv.
  by destruct (study_id (dtypes data)).
Qed.


Lemma assign_cells_map (g : cell → cell) rs :
  assign_cells (map g (map timestamp rs)) rs
  = map (λ r, set_timestamp (g (timestamp r)) r) rs.
Proof. induction rs as [|r rs IH]; simpl; [done|]. by rewrite IH. Qed.

(** X17: on a text timestamp column, every row returned is an input row that
    differs from it in the timestamp only, and the timestamp it carries is
    the parse of that same row's text: dropping rows does not shift the
    parsed column against the frame. *)
Theorem transform_data_own_timestamp data out r' :
  timestamp (dtypes data) = d_object →
  (∀ r, r ∈ rows data → is_str_or_na (timestamp r) = true) →
  transform_data data = Ok out →
  r' ∈ rows out →
  ∃ r0, r0 ∈ rows data
    ∧ r' = set_timestamp
             (parsed (map timestamp (rows (dropna data))) (timestamp r0)) r0.
Proof.
  intros Hobj Htext (kept & Hk & _ & ->)%transform_data_inv Hr'.
  apply kept_of_output in Hr'.
  set (rs := List.filter (cols_forallb notna) (rows data)).
  set (col := map timestamp rs).
  assert (Hconv : to_datetime (getitem (@timestamp) (dropna data))
                  = Ok (Ser (datetime_dtype (map (parsed col) col)) (map (parsed col) col))).
  { unfold to_datetime, getitem, dropna. simpl. rewrite Hobj.
    rewrite (mapM_Ok _ (parsed col)); [done|].
    intros c (r & -> & [Hr _]%elem_of_List_filter)%list_elem_of_fmap.
    by apply to_timestamp_text, Htext. }
  unfold filtered in Hk. rewrite Hconv in Hk. cbn in Hk. injection Hk as <-.
  simpl in Hr'. apply elem_of_List_filter in Hr' as [Hr' _].
  unfold col in Hr'. rewrite assign_cells_map in Hr'.
  apply list_elem_of_fmap in Hr' as (r0 & -> & [Hr0 _]%elem_of_List_filter).
  by exists r0.
Qed.

End Transform_more.

Section Validation_more.

Lemma verdict_true now data :
  verdict now data = Ok true ↔ checks now data = Ok tt.
Proof.
  unfold verdict. destruct (checks now data) as [[]|[]]; split; done.
Qed.

Lemma py_all_true_later now1 now2 d cs :
  (now1 <= now2)%Z →
  mapM (le_instant now1 d) cs ≫= py_all = Ok true →
  mapM (le_instant now2 d) cs ≫= py_all = Ok true.
Proof.
  intros Hle. induction cs as [|c cs IH]; [done|].
  change (mapM (le_instant now1 d) (c :: cs))
    with (y ← le_instant now1 d c; k ← mapM (le_instant now1 d) cs; mret (y :: k)).
  change (mapM (le_instant now2 d) (c :: cs))
    with (y ← le_instant now2 d c; k ← mapM (le_instant now2 d) cs; mret (y :: k)).
  destruct (le_instant now1 d c) as [b1|] eqn:E1; [|done]. cbn [mbind result_bind].
  destruct (mapM (le_instant now1 d) cs) as [k1|] eqn:Ek1; [|done]. cbn.
  destruct b1 as [[]|]; [|done..]. intros Hall.
  assert (E2 : le_instant now2 d c = Ok (Some true)).
  { unfold le_instant in *.
    destruct c as [[| | | |[tz|] ns]|]; try done; try (by destruct (nullable d)).
    injection E1 as E1. apply Z.leb_le in E1. do 2 f_equal. apply Z.leb_le. lia. }
  rewrite E2. cbn [mbind result_bind].
  specialize (IH Hall). destruct (mapM (le_instant now2 d) cs) as [k2|]; [|done].
  exact IH.
Qed.

(** X18: time only helps: a frame that [validate_data] accepts at one
    instant is accepted at every later instant. *)
Theorem validate_data_later data now1 now2 :
  (now1 <= now2)%Z →
  (validate_data now1 data).1 = Ok true →
  (validate_data now2 data).1 = Ok true.
Proof.
  intros Hle. rewrite !validate_data_verdict. simpl. rewrite !verdict_true.
  unfold checks.
  destruct (series_ge _ 0 ≫= py_all) as [[]|]; [|done..]. cbn [mbind result_bind py_assert].
  destruct (between _ 0 1 ≫= py_all) as [[]|]; [|done..]. cbn [mbind result_bind py_assert].
  destruct (series_le_instant _ now1 ≫= py_all) as [[]|] eqn:E1; [|done..].
  assert (E2 : series_le_instant (getitem (@timestamp) data) now2 ≫= py_all = Ok true).
  { unfold series_le_instant in *.
    destruct (s_dtype (getitem (@timestamp) data)) as [| | | | | | | |[tz|]];
      try done; by eapply py_all_true_later. }
  by rewrite E2.
Qed.





End Validation_more.

(* ===================================================================== *)
(** * Further properties at the sample inputs *)
(* ===================================================================== *)

(** A file with a header and no rows does not pass the dtype assertions. *)
Example transform_header_only : transform_data header_only = Raise AssertionError.
Proof. reflexivity. Qed.

Lemma etl_pipeline_unregistered_witness :
  etl_pipeline disk t_now "sample.csv" "job-1" empty_world
  = (Raise (KeyError "job-1"), empty_world)
  ∧ run_task disk t_now (mkTask "sample.csv" "job-1") empty_world
    = (Raise (KeyError "job-1"), discard (mkTask "sample.csv" "job-1") empty_world).
Proof. apply (etl_pipeline_unregistered disk t_now "sample.csv" "job-1" empty_world). reflexivity. Defined.

Lemma etl_pipeline_frame_witness :
  jobs (etl_pipeline disk t_now "sample.csv" "job-1" registry).2 !! "job-2"
  = jobs registry !! "job-2".
Proof.
  destruct (etl_pipeline disk t_now "sample.csv" "job-1" registry) as [r w'] eqn:E.
  destruct (etl_pipeline_frame disk t_now "sample.csv" "job-1" registry r w' E) as [Hother _].
  apply Hother. discriminate.
Defined.

Lemma etl_pipeline_stage_order_witness :
  ∃ w' evs, etl_pipeline disk t_now "mixed_units.csv" "job-1" registry = (Ok tt, w')
    ∧ log w' = (log registry ++ evs)%list
    ∧ stages_called evs `prefix_of` [Extract; Transform; Validate; Load]
    ∧ Extract ∈ stages_called evs.
Proof.
  apply (etl_pipeline_stage_order disk t_now "mixed_units.csv" "job-1" registry).
  exact registry_has_job_1.
Defined.

Lemma etl_pipeline_progress_witness :
  ∃ w' evs, etl_pipeline disk t_now "sample.csv" "job-1" registry = (Ok tt, w')
    ∧ log w' = (log registry ++ evs)%list
    ∧ StronglySorted Z.lt (progress_written evs)
    ∧ Forall (λ p, p ∈ [25; 50; 75; 100]%Z) (progress_written evs)
    ∧ last (progress_written evs) = Some 100%Z.
Proof.
  apply (etl_pipeline_progress disk t_now "sample.csv" "job-1" registry).
  exact registry_has_job_1.
Defined.

Lemma etl_pipeline_terminal_witness :
  ∃ w' j', etl_pipeline disk t_now "naive.csv" "job-1" registry = (Ok tt, w')
    ∧ jobs w' !! "job-1" = Some j'
    ∧ progress j' = 100%Z
    ∧ (status j' = "completed" ∨ status j' = "failed").
Proof.
  destruct (etl_pipeline_terminal disk t_now "naive.csv" "job-1" registry registry_has_job_1)
    as (w' & j' & Hrun & Hj & Hp & Hs & _).
  by exists w', j'.
Defined.

Lemma etl_pipeline_well_typed_witness :
  ∃ w' b, etl_pipeline disk t_now "mixed_units.csv" "job-1" registry = (Ok tt, w')
    ∧ validate_data t_now (Frame expected_dtypes
        [clean_row "P1" "bp" (1205 # 10) "mmHg" t_sample (9 # 10);
         clean_row "P2" "bp" (165 # 10) "kPa" t_sample (8 # 10)])
      = (Ok b, Frame expected_dtypes
        [clean_row "P1" "bp" (1205 # 10) "mmHg" t_sample (9 # 10);
         clean_row "P2" "bp" (165 # 10) "kPa" t_sample (8 # 10)])
    ∧ job_is w' "job-1" (if b then "completed" else "failed") 100
        (if b then "ETL process completed successfully" else "Data validation failed").
Proof.
  apply (etl_pipeline_well_typed disk t_now "mixed_units.csv" "job-1" registry
           mixed_units_file); [exact registry_has_job_1|reflexivity..].
Defined.

Lemma submit_then_query_witness :
  ∃ resp w1, submit_job (mkRequest "job-1" "sample.csv" None) empty_world = (Ok resp, w1)
    ∧ get_job_status "job-1" w1
      = (Ok (mkStatus "job-1" "running" (Some 0%Z) (Some "Job started")), w1).
Proof.
  destruct (submit_then_query (mkRequest "job-1" "sample.csv" None) empty_world eq_refl)
    as (_ & _ & resp & w1 & Hs & Hq & _).
  by exists resp, w1.
Defined.

Lemma submit_run_query_witness :
  ∃ resp w1 t w2 st,
    submit_job (mkRequest "job-1" "sample.csv" None) empty_world = (Ok resp, w1)
    ∧ tasks w1 = t :: tasks empty_world
    ∧ run_task disk t_now t w1 = (Ok tt, w2)
    ∧ (t ∉ tasks w2)
    ∧ get_job_status "job-1" w2 = (Ok st, w2)
    ∧ st_progress st = Some 100%Z
    ∧ (st_status st = "completed" ∨ st_status st = "failed").
Proof.
  apply (submit_run_query disk t_now (mkRequest "job-1" "sample.csv" None) empty_world).
  reflexivity.
Defined.

Lemma registered_for_good_witness :
  is_Some (jobs (serve_all day_of_calls registry) !! "job-1").
Proof.
  apply (registered_for_good day_of_calls registry "job-1"). exact registry_has_job_1.
Defined.

Lemma registry_invariant_witness : registry_ok (serve_all day_of_calls empty_world).
Proof.
  apply (registry_invariant day_of_calls empty_world).
  intros id j Hj. vm_compute in Hj. discriminate Hj.
Defined.

Lemma submit_job_commute_witness :
  jobs (serve_all [Submit (mkRequest "job-1" "sample.csv" None);
                   Submit (mkRequest "job-2" "naive.csv" None)] empty_world)
  = jobs (serve_all [Submit (mkRequest "job-2" "naive.csv" None);
                     Submit (mkRequest "job-1" "sample.csv" None)] empty_world).
Proof.
  apply (submit_job_commute (mkRequest "job-1" "sample.csv" None)
           (mkRequest "job-2" "naive.csv" None) empty_world).
  discriminate.
Defined.

Lemma transform_data_ignores_incomplete_witness :
  transform_data scenario_A
  = transform_data (Frame raw_dtypes
      [raw_row "P1" "bp" (1205 # 10) (Some "mmHg") "2024-01-15T09:30:00Z" (9 # 10);
       raw_row "P3" "hr" (725 # 10) (Some "bpm") "2024-01-15T09:30:00Z" (95 # 100)]).
Proof.
  apply (transform_data_ignores_incomplete raw_dtypes
    [raw_row "P1" "bp" (1205 # 10) (Some "mmHg") "2024-01-15T09:30:00Z" (9 # 10)]
    (raw_row "P2" "bp" (1185 # 10) None "2024-01-15T09:30:00Z" (8 # 10))
    [raw_row "P3" "hr" (725 # 10) (Some "bpm") "2024-01-15T09:30:00Z" (95 # 100)]).
  reflexivity.
Defined.

Lemma transform_data_sorted_witness : StronglySorted (desc score) (rows scenario_B_out).
Proof. apply (transform_data_sorted scenario_B scenario_B_out). reflexivity. Defined.

Lemma transform_data_typed_witness :
  dtypes scenario_B_out = expected_dtypes ∧ ∀ r, r ∈ rows scenario_B_out → typed_row r.
Proof. apply (transform_data_typed scenario_B scenario_B_out); reflexivity. Defined.

Lemma transform_data_not_empty_witness : rows scenario_B_out ≠ [].
Proof.
  apply (transform_data_not_empty scenario_B scenario_B_out); [discriminate|reflexivity].
Defined.


Lemma transform_data_own_timestamp_witness :
  ∃ r0, r0 ∈ rows scenario_B
    ∧ clean_row "P1" "bp" (1205 # 10) "mmHg" t_sample (9 # 10)
      = set_timestamp (parsed (map timestamp (rows (dropna scenario_B))) (timestamp r0)) r0.
Proof.
  apply (transform_data_own_timestamp scenario_B scenario_B_out).
  - reflexivity.
  - intros r Hr. simpl in Hr.
    repeat (apply elem_of_cons in Hr as [->|Hr]; [reflexivity|]).
    by apply elem_of_nil in Hr.
  - reflexivity.
  - by left.
Defined.

Lemma validate_data_later_witness : (validate_data day_after scenario_B_out).1 = Ok true.
Proof.
  apply (validate_data_later scenario_B_out t_now day_after); [vm_compute; discriminate|].
  reflexivity.
Defined.

